(** * sail_scripts: the website language analysis of [translation_coverage.py]

    A shallow embedding of the per-site classification engine
    ([detect_language_options], [detect_primary_language],
    [check_for_non_english_resources], [analyze_website]) and of the
    thread-pool driver [analyze_ai_safety_organizations], followed by the
    properties of the specification that they do or do not satisfy.

    Conventions of the model.
    - A Python [str] is a [string]: the UTF-8 bytes of the text.  Substring
      tests, prefixes and equality on bytes agree with the ones on
      characters; lengths and slices count characters, not bytes.  [lower]
      knows the ASCII, Latin-1 and Cyrillic letters, which are the cased
      letters of the tables of the program; letters of other scripts are
      left as they are.
    - A parsed document is the tree BeautifulSoup builds: tags with their
      attribute dictionary and contents, and strings with their class.
    - What the program takes from libraries (the network, the parser, the
      text language guesser, the serialisation of a tag) is a variable of
      the section that holds the program. *)

From Stdlib Require Import Ascii.
From Stdlib Require String.
From stdpp Require Import gmap strings list fin_maps sorting.

Set Warnings "-register-all".
Open Scope string_scope.

(** ** Python strings *)

Module Py.

(** The code of a byte *)
Definition code (c : ascii) : N := N_of_ascii c.

Definition byte (n : N) : ascii := ascii_of_N n.

Definition between (lo hi n : N) : bool := (lo <=? n)%N && (n <=? hi)%N.

(** A byte that continues a character of several bytes *)
Definition is_continuation (c : ascii) : bool := between 128 191 (code c).

(** [len(s)]: the number of characters *)
Fixpoint len (s : string) : nat :=
  match s with
  | EmptyString => 0
  | String c t => if is_continuation c then len t else S (len t)
  end.

(** [s[:n]]: the first [n] characters *)
Fixpoint take (n : nat) (s : string) : string :=
  match s with
  | EmptyString => EmptyString
  | String c t =>
      if is_continuation c then String c (take n t)
      else match n with
           | 0 => EmptyString
           | S n' => String c (take n' t)
           end
  end.

(** The lower case of an ASCII letter *)
Definition lower_char (c : ascii) : ascii :=
  if between 65 90 (code c) then byte (code c + 32) else c.

(** The lower case of a letter of two bytes: the capital letters of
    Latin-1 (U+00C0 to U+00DE without the multiplication sign) and the
    Cyrillic capital letters (U+0400 to U+042F). *)
Definition lower_pair (c d : ascii) : option (ascii * ascii) :=
  let c := code c in
  let d := code d in
  if (c =? 195)%N && between 128 158 d && negb (d =? 151)%N
  then Some (byte 195, byte (d + 32))
  else if (c =? 208)%N && between 128 143 d
  then Some (byte 209, byte (d + 16))
  else if (c =? 208)%N && between 144 159 d
  then Some (byte 208, byte (d + 32))
  else if (c =? 208)%N && between 160 175 d
  then Some (byte 209, byte (d - 32))
  else None.

(** [s.lower()] *)
Fixpoint lower (s : string) : string :=
  match s with
  | EmptyString => EmptyString
  | String c t =>
      match t with
      | String d t' =>
          match lower_pair c d with
          | Some (c', d') => String c' (String d' (lower t'))
          | None => String (lower_char c) (lower t)
          end
      | EmptyString => String (lower_char c) EmptyString
      end
  end.

(** [s.startswith(p)] *)
Definition startswith (s p : string) : bool := String.prefix p s.

(** [sub in s] *)
Fixpoint contains (sub s : string) : bool :=
  String.prefix sub s ||
  match s with
  | EmptyString => false
  | String _ t => contains sub t
  end.

(** The number of bytes of the white space character that starts [s], and
    0 when [s] starts with something else.  White space is what
    [str.isspace] accepts: U+0009 to U+000D, U+001C to U+0020, U+0085,
    U+00A0, U+1680, U+2000 to U+200A, U+2028, U+2029, U+202F, U+205F and
    U+3000. *)
Definition space_width (s : string) : nat :=
  match s with
  | EmptyString => 0
  | String a t =>
      let a := code a in
      if between 9 13 a || between 28 32 a then 1
      else
        match t with
        | String b t' =>
            let b := code b in
            if (a =? 194)%N && ((b =? 133)%N || (b =? 160)%N) then 2
            else
              match t' with
              | String c _ =>
                  let c := code c in
                  if ((a =? 225)%N && (b =? 154)%N && (c =? 128)%N)
                     || ((a =? 226)%N && (b =? 128)%N
                         && (between 128 138 c || between 168 169 c
                             || (c =? 175)%N))
                     || ((a =? 226)%N && (b =? 129)%N && (c =? 159)%N)
                     || ((a =? 227)%N && (b =? 128)%N && (c =? 128)%N)
                  then 3
                  else 0
              | EmptyString => 0
              end
        | EmptyString => 0
        end
  end.

Fixpoint drop (n : nat) (s : string) : string :=
  match n, s with
  | S n', String _ t => drop n' t
  | _, _ => s
  end.

Fixpoint lstrip_upto (fuel : nat) (s : string) : string :=
  match fuel with
  | 0 => s
  | S fuel' =>
      match space_width s with
      | 0 => s
      | w => lstrip_upto fuel' (drop w s)
      end
  end.

(** [s.lstrip()]: each step removes at least one byte *)
Definition lstrip (s : string) : string := lstrip_upto (String.length s) s.

(** [s.rstrip()]: the text up to the point where only white space
    follows *)
Fixpoint rstrip (s : string) : string :=
  match s with
  | EmptyString => EmptyString
  | String c t =>
      if String.eqb (lstrip s) EmptyString then EmptyString
      else String c (rstrip t)
  end.

(** [s.strip()] *)
Definition strip (s : string) : string := rstrip (lstrip s).

(** [s.split(sep)] for a separator of one character: the list is never
    empty, and [s.split(sep)[0]] is the text before the first [sep]. *)
Fixpoint split (sep : ascii) (s : string) : list string :=
  match s with
  | EmptyString => [EmptyString]
  | String c t =>
      if Ascii.eqb c sep then EmptyString :: split sep t
      else match split sep t with
           | [] => [String c EmptyString]
           | w :: ws => String c w :: ws
           end
  end.

(** [sep.join(l)] *)
Fixpoint join (sep : string) (l : list string) : string :=
  match l with
  | [] => EmptyString
  | [x] => x
  | x :: xs => x ++ sep ++ join sep xs
  end.

End Py.

(** ** The parsed document (BeautifulSoup) *)

(** The classes of the strings of a parse tree.  [get_text] keeps the
    strings of class [NavigableString] and [CData]; comments and the bodies
    of script, style and template elements have classes of their own and
    are left out. *)
Inductive string_class :=
| NavigableString | CData | Comment | Script | Stylesheet | TemplateString.

(** A tag holds its name, the attributes whose value is a string, the
    attributes whose value is a list of tokens ([class], [rel], ...: the
    parser splits these on white space), and its contents.  The
    [BeautifulSoup] object itself is the tag that holds the whole
    document. *)
Inductive node :=
| Tag (name : string) (attrs : gmap string string)
      (list_attrs : gmap string (list string)) (contents : list node)
| Str (cls : string_class) (s : string).

Module Soup.

Definition is_tag (n : node) : bool :=
  match n with Tag _ _ _ _ => true | Str _ _ => false end.

Definition name (n : node) : string :=
  match n with Tag nm _ _ _ => nm | Str _ _ => "" end.

Definition attrs (n : node) : gmap string string :=
  match n with Tag _ a _ _ => a | Str _ _ => ∅ end.

Definition list_attrs (n : node) : gmap string (list string) :=
  match n with Tag _ _ l _ => l | Str _ _ => ∅ end.

(** [tag.get(key, "")] for an attribute with a string value *)
Definition get (n : node) (key : string) : string :=
  default "" (attrs n !! key).

(** [tag.get(key, [])] for an attribute with a list value *)
Definition get_list (n : node) (key : string) : list string :=
  default [] (list_attrs n !! key).

(** [tag.descendants]: every node below the tag, in document order *)
Fixpoint descendants (n : node) : list node :=
  match n with
  | Tag _ _ _ cs => flat_map (fun c => c :: descendants c) cs
  | Str _ _ => []
  end.

(** [tag.find_all()]: the tags below [n] *)
Definition find_all_tags (n : node) : list node :=
  List.filter is_tag (descendants n).

Definition named (names : list string) (n : node) : bool :=
  is_tag n && bool_decide (name n ∈ names).

(** [tag.find_all(names)] *)
Definition find_all (names : list string) (n : node) : list node :=
  List.filter (named names) (descendants n).

(** [tag.find(name)] *)
Definition find (nm : string) (n : node) : option node :=
  head (find_all [nm] n).

(** [soup.find(id=v)]: the first tag whose [id] is exactly [v] *)
Definition find_id (v : string) (n : node) : option node :=
  head (List.filter
          (fun d => is_tag d && bool_decide (attrs d !! "id" = Some v))
          (descendants n)).

Definition visible (c : string_class) : bool :=
  match c with NavigableString | CData => true | _ => false end.

(** [tag.get_text()] *)
Definition get_text (n : node) : string :=
  Py.join ""
    (omap (fun d => match d with
                    | Str c s => if visible c then Some s else None
                    | Tag _ _ _ _ => None
                    end) (descendants n)).

(** [tag.string]: the string of a tag with a single string below it *)
Fixpoint string_ (n : node) : option string :=
  match n with
  | Str _ s => Some s
  | Tag _ _ _ [c] => string_ c
  | Tag _ _ _ _ => None
  end.

(** How a search value matches an attribute with a list value: one of
    the tokens matches, or the tokens joined by spaces do. *)
Definition list_matches (p : string -> bool) (l : list string) : bool :=
  existsb p l || p (Py.join " " l).

(** The selectors that [soup.select] is called with: a tag name, or a
    tag name with a class. *)
Inductive selector :=
| SelTag (nm : string)
| SelTagClass (nm cls : string).

Definition selects (sel : selector) (n : node) : bool :=
  match sel with
  | SelTag nm => named [nm] n
  | SelTagClass nm cls =>
      named [nm] n && bool_decide (cls ∈ get_list n "class")
  end.

(** [soup.select(sel)] *)
Definition select (sel : selector) (n : node) : list node :=
  List.filter (selects sel) (descendants n).

End Soup.

(** ** Results and errors *)

(** One entry of [language_options]: the dictionaries the detector appends,
    by their ["type"]. *)
Inductive language_option :=
| language_select (matched_codes matched_names : nat) (content : string)
| language_menu (matched_paths matched_names : list string) (content : string)
| id_exact_match (pattern content : string)
| alternate_hreflang (languages : list string) (count : nat)
| google_translate (content : string)
| google_translate_script (content : string).

(** One entry of [non_english_indicators]. *)
Inductive non_english_indicator :=
| link_with_language (indicator content : string)
| resource_section (indicator content : string).

(** An instance of Python's [Exception]; [str(e)] is its message. *)
Inductive Exception := Exc (message : string).

Definition str_exc (e : Exception) : string :=
  match e with Exc m => m end.

(** The outcome of a call that may raise. *)
Inductive outcome (A : Type) :=
| Return (a : A)
| Raise (e : Exception).
Arguments Return {A} a.
Arguments Raise {A} e.

#[global] Instance outcome_ret : MRet outcome := fun A a => Return a.

#[global] Instance outcome_bind : MBind outcome := fun A B k c =>
  match c with
  | Return a => k a
  | Raise e => Raise e
  end.

Inductive status := success | error.

(** The dictionary [analyze_website] returns.  A key that a return path
    leaves out ([status_code], [error]) is [None], and so is the Python
    [None] of [primary_language]. *)
Record SiteResult := {
  r_name : string;
  r_url : string;
  r_status : status;
  r_status_code : option Z;
  r_error : option string;
  r_primary_language : option string;
  r_has_language_options : bool;
  r_language_options : list language_option;
  r_has_non_english_resources : bool
}.

Record Org := { org_name : string; org_url : string }.

Record Response := { status_code : Z; text : string }.

(** ** The tables of [detect_language_options] *)

(** The dictionary [language_names], in its order of insertion. *)
Definition language_names : list (string * string) :=
  [ ("english", "en"); ("español", "es"); ("spanish", "es");
    ("français", "fr"); ("french", "fr"); ("deutsch", "de");
    ("german", "de"); ("italiano", "it"); ("italian", "it");
    ("português", "pt"); ("portuguese", "pt"); ("русский", "ru");
    ("russian", "ru"); ("中文", "zh"); ("chinese", "zh");
    ("日本語", "ja"); ("japanese", "ja"); ("العربية", "ar");
    ("arabic", "ar"); ("हिन्दी", "hi"); ("hindi", "hi") ].

Definition language_codes : list string :=
  ["en"; "es"; "fr"; "de"; "it"; "pt"; "ru"; "zh"; "ja"; "ar"; "hi"].

Definition exclude_domains : list string :=
  [ "scholar.google.com"; "translate.google.com"; "accounts.google.com";
    "twitter.com"; "facebook.com"; "linkedin.com"; "youtube.com" ].

Definition lang_indicators : list string :=
  ["lang"; "idioma"; "sprache"; "langue"; "language"; "locale"].

Definition explicit_lang_terms : list string :=
  [ "language-selector"; "lang-selector"; "language-menu"; "lang-menu";
    "language-nav"; "lang-nav"; "language-switcher"; "lang-switcher" ].

Definition lang_id_patterns : list string :=
  [ "language-selector"; "languageSelector"; "language-switcher";
    "languageSwitcher"; "lang-selector"; "langSelector"; "lang-switcher";
    "langSwitcher"; "select-language"; "selectLanguage"; "change-language";
    "changeLanguage"; "translate-button"; "translateButton";
    "translation-menu"; "translationMenu" ].

(** ** The two regular expressions of the link group search *)

Module Re.

(** [[a-z]] *)
Definition is_az (c : ascii) : bool :=
  (97 <=? nat_of_ascii c)%nat && (nat_of_ascii c <=? 122)%nat.

(** [(/|$|\?)] at the start of [s]; [$] holds at the end of the text and
    before a line feed that ends it. *)
Definition path_end (s : string) : bool :=
  match s with
  | EmptyString => true
  | String c r =>
      Ascii.eqb c "/" || Ascii.eqb c "?" ||
      (Ascii.eqb c "010" && String.eqb r "")
  end.

(** [(?:-[a-z]{2})] followed by [(/|$|\?)] at the start of [s] *)
Definition region_then_end (s : string) : bool :=
  match s with
  | String d (String a (String b r)) =>
      Ascii.eqb d "-" && is_az a && is_az b && path_end r
  | _ => false
  end.

(** [/([a-z]{2})(?:-[a-z]{2})?(/|$|\?)] matched at the start of [s]:
    group 1 *)
Definition path_at (s : string) : option string :=
  match s with
  | String sl (String a (String b r)) =>
      if Ascii.eqb sl "/" && is_az a && is_az b
         && (region_then_end r || path_end r)
      then Some (String a (String b EmptyString))
      else None
  | _ => None
  end.

(** [re.search(r"/([a-z]{2})(?:-[a-z]{2})?(/|$|\?)", s)]: group 1 of the
    leftmost match *)
Fixpoint search_path (s : string) : option string :=
  match path_at s with
  | Some g => Some g
  | None =>
      match s with
      | EmptyString => None
      | String _ t => search_path t
      end
  end.

(** [=([a-z]{2})] after the name [key], at the start of [s]: group 2 *)
Definition value_after (key s : string) : option string :=
  if String.prefix (key ++ "=") s then
    match String.substring (String.length key + 1) 2 s with
    | String a (String b EmptyString) =>
        if is_az a && is_az b then Some (String a (String b EmptyString))
        else None
    | _ => None
    end
  else None.

(** [[\?&](lang|language)=([a-z]{2})] matched at the start of [s] *)
Definition param_at (s : string) : option string :=
  match s with
  | String c r =>
      if Ascii.eqb c "?" || Ascii.eqb c "&" then
        match value_after "lang" r with
        | Some g => Some g
        | None => value_after "language" r
        end
      else None
  | EmptyString => None
  end.

(** [re.search(r"[\?&](lang|language)=([a-z]{2})", s)]: group 2 of the
    leftmost match *)
Fixpoint search_param (s : string) : option string :=
  match param_at s with
  | Some g => Some g
  | None =>
      match s with
      | EmptyString => None
      | String _ t => search_param t
      end
  end.

(** The Kelvin sign U+212A: the bytes E2 84 AA *)
Definition kelvin_sign : string :=
  String "226" (String "132" (String "170" EmptyString)).

(** A lower-case letter [c] of a pattern compiled with [re.I], matched at
    the start of [s]: what follows the matched character.  The letter
    matches itself and its capital; [i] also matches U+0130 and U+0131,
    [s] also U+017F and [k] also U+212A, the characters outside ASCII
    whose case folds onto an ASCII letter. *)
Definition ignorecase_letter (c : ascii) (s : string) : option string :=
  match s with
  | String a t =>
      if Ascii.eqb (Py.lower_char a) c then Some t
      else if Ascii.eqb c "i"
              && (String.prefix "İ" s || String.prefix "ı" s)
      then Some (Py.drop 2 s)
      else if Ascii.eqb c "s" && String.prefix "ſ" s
      then Some (Py.drop 2 s)
      else if Ascii.eqb c "k" && String.prefix kelvin_sign s
      then Some (Py.drop 3 s)
      else None
  | EmptyString => None
  end.

(** A word of lower-case letters, compiled with [re.I], matched at the
    start of [s] *)
Fixpoint ignorecase_at (word s : string) : bool :=
  match word with
  | EmptyString => true
  | String c word' =>
      match ignorecase_letter c s with
      | Some rest => ignorecase_at word' rest
      | None => false
      end
  end.

(** [re.compile(word, re.I).search(s)]: whether there is a match *)
Fixpoint ignorecase_search (word s : string) : bool :=
  ignorecase_at word s ||
  match s with
  | EmptyString => false
  | String _ t => ignorecase_search word t
  end.

End Re.

(** ** The program *)

Section Program.

(** [str(tag)]: the markup of a tag, as BeautifulSoup writes it *)
Variable str_ : node -> string.

(** [langdetect.detect] *)
Variable langdetect_detect : string -> outcome string.

(** [requests.get(url, headers=headers, timeout=15)] *)
Variable requests_get : string -> outcome Response.

(** [BeautifulSoup(text, "html.parser")] *)
Variable BeautifulSoup : string -> outcome node.

(** *** [detect_language_options] *)

(** Approach 1: the select elements *)

Definition has_lang_indicator (select : node) : bool :=
  let select_id := Py.lower (Soup.get select "id") in
  let select_name := Py.lower (Soup.get select "name") in
  let select_classes :=
    Py.lower (Py.join " " (Soup.get_list select "class")) in
  existsb (fun indicator =>
             Py.contains indicator select_id
             || Py.contains indicator select_name
             || Py.contains indicator select_classes)
          lang_indicators.

Definition lang_code_matches (option_values : list string) : nat :=
  length (List.filter
            (fun code =>
               existsb (fun val =>
                          String.eqb val code
                          || Py.startswith val (code ++ "-")
                          || Py.startswith val (code ++ "_"))
                       option_values)
            language_codes).

Definition lang_name_matches (option_texts : list string) : nat :=
  length (List.filter
            (fun name => existsb (Py.contains name) option_texts)
            (map fst language_names)).

Definition select_options (select : node) : list language_option :=
  let options := Soup.find_all ["option"] select in
  if (2 <=? length options)%nat && (length options <=? 15)%nat then
    if negb (has_lang_indicator select) then
      let option_values :=
        map (fun opt => Py.lower (Soup.get opt "value")) options in
      let option_texts :=
        map (fun opt => Py.lower (Py.strip (Soup.get_text opt))) options in
      let code_matches := lang_code_matches option_values in
      let name_matches := lang_name_matches option_texts in
      if (2 <=? code_matches)%nat || (2 <=? name_matches)%nat then
        [language_select code_matches name_matches
                         (Py.take 200 (str_ select))]
      else []
    else []
  else [].

Definition approach1 (soup : node) : list language_option :=
  flat_map select_options (Soup.find_all ["select"] soup).

(** Approach 2: the groups of links *)

Definition explicit_lang_element (nav : node) : bool :=
  let nav_id := Py.lower (Soup.get nav "id") in
  let nav_classes := Py.lower (Py.join " " (Soup.get_list nav "class")) in
  existsb (fun term =>
             Py.contains term nav_id || Py.contains term nav_classes)
          explicit_lang_terms.

(** What one href adds to [lang_path_matches] *)
Definition href_matches (href : string) : list string :=
  (match Re.search_path href with
   | Some g => if bool_decide (g ∈ language_codes) then [g] else []
   | None => []
   end)
  ++
  (match Re.search_param href with
   | Some g =>
       if bool_decide (g ∈ language_codes) then
         if Py.contains "hl=" href && Py.contains "scholar.google" href
         then []
         else [g]
       else []
   | None => []
   end).

(** What one link text adds to [text_lang_matches]: the code of the
    first name of [language_names] that fits. *)
Definition text_match (text : string) : list string :=
  match List.find (fun nc : string * string =>
                     String.eqb text nc.1 || String.eqb text nc.2
                     || Py.startswith text (nc.1 ++ " "))
                  language_names with
  | Some nc => [nc.2]
  | None => []
  end.

Definition nav_options (nav : node) : list language_option :=
  if (20 <? length (Soup.find_all_tags nav))%nat then []
  else
    let required_matches := if explicit_lang_element nav then 1 else 2 in
    let links := Soup.find_all ["a"] nav in
    if (2 <=? length links)%nat && (length links <=? 10)%nat then
      let filtered_links :=
        List.filter
          (fun link =>
             negb (existsb (fun domain =>
                              Py.contains domain (Soup.get link "href"))
                           exclude_domains))
          links in
      if (length filtered_links <? 2)%nat then []
      else
        let href_values :=
          map (fun link => Py.lower (Soup.get link "href")) filtered_links in
        let link_texts :=
          map (fun link => Py.lower (Py.strip (Soup.get_text link)))
              filtered_links in
        let lang_path_matches := flat_map href_matches href_values in
        let unique_lang_paths : gset string :=
          list_to_set lang_path_matches in
        let text_lang_matches := flat_map text_match link_texts in
        let unique_text_matches : gset string :=
          list_to_set text_lang_matches in
        let all_matches := unique_lang_paths ∪ unique_text_matches in
        if (required_matches <=? size all_matches)%nat then
          [language_menu (elements unique_lang_paths)
                         (elements unique_text_matches)
                         (Py.take 200 (str_ nav))]
        else []
    else [].

Definition approach2 (soup : node) : list language_option :=
  flat_map nav_options (Soup.find_all ["nav"; "ul"; "div"] soup).

(** Approach 3: the identifiers of language switchers *)

Definition id_pattern_options (soup : node) (pattern : string)
  : list language_option :=
  match Soup.find_id pattern soup with
  | Some element =>
      if (1 <=? length (Soup.find_all ["a"] element))%nat
         || (1 <=? length (Soup.find_all ["select"] element))%nat
         || (1 <=? length (Soup.find_all ["button"] element))%nat
      then [id_exact_match pattern (Py.take 200 (str_ element))]
      else []
  | None => []
  end.

Definition approach3 (soup : node) : list language_option :=
  flat_map (id_pattern_options soup) lang_id_patterns.

(** Approach 4: the alternate links with [hreflang] *)

Definition rel_alternate (link : node) : bool :=
  match Soup.list_attrs link !! "rel" with
  | Some rel => Soup.list_matches (String.eqb "alternate") rel
  | None => false
  end.

(** [soup.find_all("link", attrs={"rel": "alternate", "hreflang": True})] *)
Definition alternate_links (soup : node) : list node :=
  List.filter
    (fun link => rel_alternate link
                 && bool_decide (is_Some (Soup.attrs link !! "hreflang")))
    (Soup.find_all ["link"] soup).

(** What one link adds to [alt_langs] *)
Definition alt_lang (link : node) : list string :=
  let lang_code := Py.lower (Soup.get link "hreflang") in
  if negb (String.eqb lang_code "")
     && negb (String.eqb lang_code "en")
     && negb (String.eqb lang_code "x-default")
  then [lang_code]
  else [].

Definition alt_langs (soup : node) : gset string :=
  list_to_set (flat_map alt_lang (alternate_links soup)).

Definition approach4 (soup : node) : list language_option :=
  let langs := alt_langs soup in
  if bool_decide (langs ≠ ∅) then
    [alternate_hreflang (elements langs) (size langs)]
  else [].

(** Approach 5: Google Translate *)

Definition gt_element_options (soup : node) : list language_option :=
  match Soup.find_id "google_translate_element" soup with
  | Some gt_element => [google_translate (Py.take 200 (str_ gt_element))]
  | None => []
  end.

Definition translate_script (script : node) : bool :=
  let script_text := default "" (Soup.string_ script) in
  negb (String.eqb script_text "")
  && Py.contains "new google.translate.TranslateElement" script_text.

(** The loop over the scripts stops at the first one that fits. *)
Definition gt_script_options (soup : node) : list language_option :=
  if existsb translate_script (Soup.find_all ["script"] soup) then
    [google_translate_script "Google Translate implementation detected"]
  else [].

Definition detect_language_options (soup : node) : list language_option :=
  approach1 soup ++ approach2 soup ++ approach3 soup ++ approach4 soup
  ++ gt_element_options soup ++ gt_script_options soup.

(** *** [detect_primary_language] *)

(** The [lang] attribute of the first [html] tag, when there is one *)
Definition html_lang (soup : node) : option string :=
  html_tag ← Soup.find "html" soup; Soup.attrs html_tag !! "lang".

(** [soup.find("meta", attrs={"http-equiv": "content-language"})] and
    its [content] attribute *)
Definition meta_content (soup : node) : option string :=
  meta_lang ← head (List.filter
                      (fun m => bool_decide (Soup.attrs m !! "http-equiv"
                                             = Some "content-language"))
                      (Soup.find_all ["meta"] soup));
  Soup.attrs meta_lang !! "content".

Definition content_selectors : list Soup.selector :=
  [ Soup.SelTag "main"; Soup.SelTag "article"; Soup.SelTag "section";
    Soup.SelTagClass "div" "content"; Soup.SelTagClass "div" "main" ].

(** Each stage of the inference from the text either returns from the
    function with what the guesser says ([Some]), or lets the next stage
    run ([None]). *)
Definition guess_if_long (text : string) : option (outcome string) :=
  if (100 <? Py.len text)%nat then Some (langdetect_detect text) else None.

Definition from_paragraphs (soup : node) : option (outcome string) :=
  let paragraphs := Soup.find_all ["p"] soup in
  match paragraphs with
  | [] => None
  | _ =>
      guess_if_long
        (Py.join " " (map (fun p => Py.strip (Soup.get_text p))
                          (firstn 5 paragraphs)))
  end.

Fixpoint from_containers (soup : node) (tags : list Soup.selector)
  : option (outcome string) :=
  match tags with
  | [] => None
  | tag :: rest =>
      match Soup.select tag soup with
      | content0 :: _ =>
          match guess_if_long (Py.strip (Soup.get_text content0)) with
          | Some r => Some r
          | None => from_containers soup rest
          end
      | [] => from_containers soup rest
      end
  end.

Definition from_body (soup : node) : option (outcome string) :=
  match Soup.find "body" soup with
  | Some body => guess_if_long (Py.strip (Soup.get_text body))
  | None => None
  end.

Definition from_text (soup : node) : option (outcome string) :=
  match from_paragraphs soup with
  | Some r => Some r
  | None =>
      match from_containers soup content_selectors with
      | Some r => Some r
      | None => from_body soup
      end
  end.

Definition detect_primary_language (soup : node) : string :=
  match html_lang soup with
  | Some lang =>
      let lang_attr := Py.lower lang in
      if Py.contains "-" lang_attr
      then List.hd "" (Py.split "-" lang_attr)
      else lang_attr
  | None =>
      match meta_content soup with
      | Some content => List.hd "" (Py.split "-" (Py.lower content))
      | None =>
          match from_text soup with
          | Some (Return lang) => lang
          | Some (Raise _) => "unknown"
          | None => "unknown"
          end
      end
  end.

(** *** [check_for_non_english_resources] *)

Definition language_indicators : list string :=
  [ "/es/"; "/fr/"; "/de/"; "/zh/"; "/ru/"; "/ja/"; "/ar/";
    "español"; "français"; "deutsch"; "中文"; "русский"; "日本語";
    "العربية" ].

(** [soup.find_all("a", href=True)] *)
Definition links_with_href (soup : node) : list node :=
  List.filter (fun a => bool_decide (is_Some (Soup.attrs a !! "href")))
              (Soup.find_all ["a"] soup).

Definition link_indicator (a : node) (indicator : string) : bool :=
  Py.contains indicator (Py.lower (Soup.get a "href"))
  || Py.contains indicator (Py.lower (Soup.get_text a)).

Definition resource_words : list string :=
  ["resource"; "publication"; "paper"; "documentation"].

(** [re.compile("(resource|publication|paper|documentation)", re.I)]
    searched in [s]: one of the four words occurs in [s], letter case
    ignored as [re.I] ignores it *)
Definition resource_re (s : string) : bool :=
  existsb (fun w => Re.ignorecase_search w s) resource_words.

(** [soup.find_all(["section", "div"], class_=re.compile(...))] *)
Definition resource_sections (soup : node) : list node :=
  List.filter
    (fun section =>
       match Soup.list_attrs section !! "class" with
       | Some classes => Soup.list_matches resource_re classes
       | None => false
       end)
    (Soup.find_all ["section"; "div"] soup).

Definition section_indicator (section : node) (indicator : string) : bool :=
  Py.contains indicator (Py.lower (Soup.get_text section)).

Definition non_english_indicators (soup : node)
  : list non_english_indicator :=
  flat_map
    (fun a =>
       flat_map (fun indicator =>
                   if link_indicator a indicator
                   then [link_with_language indicator
                                            (Py.take 100 (str_ a))]
                   else [])
                language_indicators)
    (links_with_href soup)
  ++
  flat_map
    (fun section =>
       flat_map (fun indicator =>
                   if section_indicator section indicator
                   then [resource_section
                           indicator
                           (Py.take 100 (Soup.get_text section))]
                   else [])
                language_indicators)
    (resource_sections soup).

Definition check_for_non_english_resources
  (soup : node) (primary_language : string) : bool :=
  if negb (String.eqb primary_language "en")
     && negb (String.eqb primary_language "unknown")
  then true
  else (0 <? length (non_english_indicators soup))%nat.

(** *** [analyze_website] *)

(** The result of a response whose status code is not 200 *)
Definition status_error (org : Org) (code : Z) : SiteResult :=
  {| r_name := org_name org;
     r_url := org_url org;
     r_status := error;
     r_status_code := Some code;
     r_error := None;
     r_primary_language := None;
     r_has_language_options := false;
     r_language_options := [];
     r_has_non_english_resources := false |}.

(** The result of the handler of [except Exception as e] *)
Definition exception_error (org : Org) (e : Exception) : SiteResult :=
  {| r_name := org_name org;
     r_url := org_url org;
     r_status := error;
     r_status_code := None;
     r_error := Some (str_exc e);
     r_primary_language := None;
     r_has_language_options := false;
     r_language_options := [];
     r_has_non_english_resources := false |}.

(** The three detection steps on a parsed document *)
Definition classify (org : Org) (soup : node) : SiteResult :=
  let primary_language := detect_primary_language soup in
  let language_options := detect_language_options soup in
  let has_non_english_resources :=
    check_for_non_english_resources soup primary_language in
  {| r_name := org_name org;
     r_url := org_url org;
     r_status := success;
     r_status_code := None;
     r_error := None;
     r_primary_language := Some primary_language;
     r_has_language_options := (0 <? length language_options)%nat;
     r_language_options := language_options;
     r_has_non_english_resources := has_non_english_resources |}.

(** The body of the [try] *)
Definition analyze_website_try (org : Org) : outcome SiteResult :=
  response ← requests_get (org_url org);
  if negb (status_code response =? 200)%Z then
    mret (status_error org (status_code response))
  else
    soup ← BeautifulSoup (text response);
    mret (classify org soup).

Definition analyze_website (org : Org) : SiteResult :=
  match analyze_website_try org with
  | Return result => result
  | Raise e => exception_error org e
  end.

(** *** The thread pool of [analyze_ai_safety_organizations] *)

(** [executor.submit] makes a new future at each call: a future is
    known by its rank among the calls.  [future_to_org] maps each one
    to the row it was submitted with. *)
Definition future_to_org (rows : list Org) : gmap nat Org :=
  list_to_map (imap (fun i row => (i, row)) rows).

(** [future.result()]: what the call of [analyze_website] on the row of
    the future returned *)
Definition future_result (rows : list Org) (future : nat)
  : option SiteResult :=
  analyze_website <$> future_to_org rows !! future.

(** [results] after the loop over [as_completed(future_to_org)], the
    futures having completed in the order [completed] *)
Definition analyze_ai_safety_organizations
  (rows : list Org) (completed : list nat) : list SiteResult :=
  omap (future_result rows) completed.

End Program.

(** ** Definitions used to state the properties *)

(** The text of a language tag before its first hyphen: [fr] for [fr-ca],
    and the whole tag when it has no hyphen. *)
Fixpoint primary_subtag (s : string) : string :=
  match s with
  | EmptyString => EmptyString
  | String c t =>
      if Ascii.eqb c "-" then EmptyString else String c (primary_subtag t)
  end.

Definition is_alternate_hreflang (o : language_option) : bool :=
  match o with alternate_hreflang _ _ => true | _ => false end.

(** The codes that the alternate links of a document declare, as the
    program reads them: the [hreflang] values in lower case, without the
    empty value, [en] and [x-default]. *)
Definition declared_code (soup : node) (code : string) : Prop :=
  exists link, In link (alternate_links soup)
               /\ code = Py.lower (Soup.get link "hreflang")
               /\ code <> "" /\ code <> "en" /\ code <> "x-default".

(** [as_completed(future_to_org)] yields each future of the dictionary
    once, and nothing else, in an order the scheduler chooses. *)
Definition as_completed (rows : list Org) (completed : list nat) : Prop :=
  NoDup completed
  /\ forall future, future ∈ completed
                    <-> is_Some (future_to_org rows !! future).

(** The option values and texts the detector reads from a select *)
Definition raw_option_values (select : node) : list string :=
  map (fun opt => Soup.get opt "value") (Soup.find_all ["option"] select).

Definition option_texts (select : node) : list string :=
  map (fun opt => Py.lower (Py.strip (Soup.get_text opt)))
      (Soup.find_all ["option"] select).

(** A hyperlink of a document: an [a] element below its root that has an
    [href] attribute, with the value of that attribute *)
Definition hyperlink (soup a : node) (href : string) : Prop :=
  In a (Soup.descendants soup)
  /\ exists attrs list_attrs contents,
       a = Tag "a" attrs list_attrs contents /\ attrs !! "href" = Some href.

(** The characters that stand for the letter [c] when letter case is
    ignored: those whose lower case is [c] and, for [i], [s] and [k], the
    dotted capital and the dotless small i, the long s and the Kelvin
    sign. *)
Definition letter_ignoring_case (c : ascii) (t : string) : Prop :=
  (exists a, t = String a "" /\ Py.lower_char a = c)
  \/ (c = "i"%char /\ (t = "İ" \/ t = "ı"))
  \/ (c = "s"%char /\ t = "ſ")
  \/ (c = "k"%char /\ t = Re.kelvin_sign).

(** [text] spells [word], letter by letter, when letter case is ignored *)
Inductive same_ignoring_case : string -> string -> Prop :=
| same_empty : same_ignoring_case "" ""
| same_letter (c : ascii) (word t text : string) :
    letter_ignoring_case c t ->
    same_ignoring_case word text ->
    same_ignoring_case (String c word) (t ++ text).

(** [word] occurs somewhere in [s] when letter case is ignored *)
Definition occurs_ignoring_case (word s : string) : Prop :=
  exists before middle after,
    s = before ++ middle ++ after /\ same_ignoring_case word middle.

(** A class attribute that names a container of resources: one of the
    four words occurs, letter case ignored, in one of its tokens or in the
    tokens joined by spaces *)
Definition resource_class (classes : list string) : Prop :=
  exists word,
    In word ["resource"; "publication"; "paper"; "documentation"]
    /\ ((exists token, In token classes /\ occurs_ignoring_case word token)
        \/ occurs_ignoring_case word (Py.join " " classes)).

(** A resource section of a document: a [section] or [div] element below
    its root whose class attribute names a container of resources *)
Definition resource_container (soup section : node) : Prop :=
  In section (Soup.descendants soup)
  /\ exists name attrs list_attrs contents classes,
       section = Tag name attrs list_attrs contents
       /\ (name = "section" \/ name = "div")
       /\ list_attrs !! "class" = Some classes
       /\ resource_class classes.

(** ** Examples *)

(** The markup of a tag without its attributes: a stand-in for [str(tag)]
    in the examples below, none of which depends on the content of a
    signal. *)
Fixpoint render (n : node) : string :=
  match n with
  | Tag nm _ _ cs =>
      "<" ++ nm ++ ">" ++ Py.join "" (map render cs) ++ "</" ++ nm ++ ">"
  | Str _ s => s
  end.

(** A guesser that finds every text too short to decide *)
Definition no_guess (text : string) : outcome string :=
  Raise (Exc "No features in text.").

(** A tag with string attributes only *)
Definition elem (nm : string) (attributes : list (string * string))
  (contents : list node) : node :=
  Tag nm (list_to_map attributes) ∅ contents.

Definition txt (s : string) : node := Str NavigableString s.

Definition document (contents : list node) : node :=
  Tag "[document]" ∅ ∅ contents.

Definition option_ (value label : string) : node :=
  elem "option" [("value", value)] [txt label].

(** <select id="language"> with the options a and b *)
Definition select_named_language : node :=
  elem "select" [("id", "language")] [option_ "a" "A"; option_ "b" "B"].

(** <select id="lang"> with the options en, fr, de *)
Definition select_lang_picker : node :=
  elem "select" [("id", "lang")]
       [option_ "en" "English"; option_ "fr" "Français";
        option_ "de" "Deutsch"].

(** <select> with the options en and fr, labelled EN and FR *)
Definition select_en_fr : node :=
  elem "select" [] [option_ "en" "EN"; option_ "fr" "FR"].

(** <select> with the options en, fr and de *)
Definition select_en_fr_de : node :=
  elem "select" [] [option_ "en" "EN"; option_ "fr" "FR"; option_ "de" "DE"].

Definition page (contents : list node) : node :=
  document [elem "html" [] [elem "body" [] contents]].

(** <link rel="alternate" hreflang=...> *)
Definition alternate (hreflang : string) : node :=
  Tag "link" (list_to_map [("hreflang", hreflang); ("href", "/")])
      {[ "rel" := ["alternate"] ]} [].

Definition page_with_links (links : list node) : node :=
  document [elem "html" [] [elem "head" [] links; elem "body" [] []]].

Definition html_with_lang (lang : string) : node :=
  document [elem "html" [("lang", lang)] [elem "body" [] []]].

Definition ok_response : Response := {| status_code := 200; text := "" |}.

Definition org0 : Org :=
  {| org_name := "Example"; org_url := "https://example.org" |}.

(** A list of two links: <a href="/fr/">Français</a> and
    <a href="/de/">Deutsch</a> *)
Definition language_menu_list : node :=
  elem "ul" []
       [ elem "li" [] [elem "a" [("href", "/fr/")] [txt "Français"]];
         elem "li" [] [elem "a" [("href", "/de/")] [txt "Deutsch"]] ].

(** <div id="google_translate_element"></div> and the script that starts
    the widget *)
Definition translate_widget : list node :=
  [ elem "div" [("id", "google_translate_element")] [];
    elem "script" []
         [Str Script "new google.translate.TranslateElement({}, 'x');"] ].

(** <div id="lang-switcher"><button>EN</button></div> *)
Definition switcher_button : node :=
  elem "div" [("id", "lang-switcher")] [elem "button" [] [txt "EN"]].

(** <a href="/fr/rapport">Rapport</a> *)
Definition french_link : node :=
  elem "a" [("href", "/fr/rapport")] [txt "Rapport"].

(** <div class=...> or <section class=...> with one paragraph *)
Definition container (nm : string) (classes : list string) (text : string)
  : node :=
  Tag nm ∅ {[ "class" := classes ]} [elem "p" [] [txt text]].

(** <div class="sidebar Publications"><p>Rapports en français</p></div> *)
Definition french_publications : node :=
  container "div" ["sidebar"; "Publications"] "Rapports en français".

(** <section class="PUBLİCATİON"><p>Français</p></section> *)
Definition dotted_publication : node :=
  container "section" ["PUBLİCATİON"] "Français".

Definition respond (response : Response) (url : string) : outcome Response :=
  Return response.

Definition unreachable (url : string) : outcome Response :=
  Raise (Exc "Connection refused").

Definition parse_as (soup : node) (markup : string) : outcome node :=
  Return soup.

Definition parse_fails (markup : string) : outcome node :=
  Raise (Exc "Malformed markup").

Definition three_orgs : list Org :=
  [ {| org_name := "A"; org_url := "https://a.org" |};
    {| org_name := "B"; org_url := "https://b.org" |};
    {| org_name := "C"; org_url := "https://c.org" |} ].

(** ** Definitions used to state further properties of the detectors *)

(** The rank of the approach that appends a signal of this kind *)
Definition approach_rank (o : language_option) : nat :=
  match o with
  | language_select _ _ _ => 1
  | language_menu _ _ _ => 2
  | id_exact_match _ _ => 3
  | alternate_hreflang _ _ => 4
  | google_translate _ => 5
  | google_translate_script _ => 6
  end.

(** The ["content"] of a signal, for the kinds that have one *)
Definition content_of (o : language_option) : option string :=
  match o with
  | language_select _ _ content => Some content
  | language_menu _ _ content => Some content
  | id_exact_match _ content => Some content
  | alternate_hreflang _ _ => None
  | google_translate content => Some content
  | google_translate_script content => Some content
  end.

Definition is_google_translate_script (o : language_option) : bool :=
  match o with google_translate_script _ => true | _ => false end.

(** A text of two letters of [[a-z]] *)
Definition two_letters (g : string) : Prop :=
  exists a b, g = String a (String b EmptyString)
              /\ Re.is_az a = true /\ Re.is_az b = true.

(** ** The statistics of [analyze_ai_safety_organizations] and of
    [print_stats.py] *)

Definition is_success (s : status) : bool :=
  match s with success => true | error => false end.

(** [len(df[df["status"] == "success"])] *)
Definition total_success (df : list SiteResult) : nat :=
  length (List.filter (fun r => is_success (r_status r)) df).

(** [len(df[(df["status"] == "success") & (df["primary_language"] == "en")])] *)
Definition english_sites (df : list SiteResult) : nat :=
  length (List.filter
            (fun r => is_success (r_status r)
                      && bool_decide (r_primary_language r = Some "en"))
            df).

(** [len(df[df["has_language_options"] == True])] *)
Definition sites_with_language_options (df : list SiteResult) : nat :=
  length (List.filter r_has_language_options df).

(** [len(df[df["has_non_english_resources"] == True])] *)
Definition sites_with_non_english_resources (df : list SiteResult) : nat :=
  length (List.filter r_has_non_english_resources df).

Section Statistics.

(** The floating point numbers, and [a / b * 100] for two integers of
    which the second is not zero *)
Variable float : Type.
Variable percentage : nat -> nat -> float.

(** A value of the returned dictionary: the integer of [else 0], or a
    floating point number *)
Inductive number :=
| Int (z : Z)
| Float (x : float).

Record Stats := {
  total_orgs : nat;
  successful_analysis : nat;
  english_percent : number;
  multilingual_percent : number;
  non_english_resources_percent : number
}.

(** [a / b * 100] as the prints compute it: the division of two integers
    raises when the second is zero *)
Definition percent (a b : nat) : outcome float :=
  if (b =? 0)%nat then Raise (Exc "division by zero")
  else Return (percentage a b).

(** [a / b * 100 if b > 0 else 0] *)
Definition guarded_percent (a b : nat) : number :=
  if (0 <? b)%nat then Float (percentage a b) else Int 0.

(** The statistics from the data frame on: the three prints that divide
    by [total_success], then the dictionary with its guarded divisions.
    This is the whole of [print_stats.py] after it has read its file; in
    [analyze_ai_safety_organizations] two files are written between the
    prints and the return, which [analyze_ai_safety_organizations_call]
    below adds. *)
Definition print_and_return (rows : nat) (df : list SiteResult)
  : outcome Stats :=
  _ ← percent (english_sites df) (total_success df);
  _ ← percent (sites_with_language_options df) (total_success df);
  _ ← percent (sites_with_non_english_resources df) (total_success df);
  mret {| total_orgs := rows;
          successful_analysis := total_success df;
          english_percent :=
            guarded_percent (english_sites df) (total_success df);
          multilingual_percent :=
            guarded_percent (sites_with_language_options df)
                            (total_success df);
          non_english_resources_percent :=
            guarded_percent (sites_with_non_english_resources df)
                            (total_success df) |}.

(** [print_stats.py] on the rows of the file it reads *)
Definition print_stats (df : list SiteResult) : outcome Stats :=
  print_and_return (length df) df.

Variable str_ : node -> string.
Variable langdetect_detect : string -> outcome string.
Variable requests_get : string -> outcome Response.
Variable BeautifulSoup : string -> outcome node.

(** The statistics of [analyze_ai_safety_organizations] once the results
    are collected: what the function returns when it writes its two files
    without error, and the exception of its counts and prints otherwise.
    [pd.DataFrame(results)] of an empty list has no column, and asking it
    for ["status"] raises [KeyError]. *)
Definition analyze_ai_safety_organizations_stats
  (rows : list Org) (completed : list nat) : outcome Stats :=
  let results :=
    analyze_ai_safety_organizations
      str_ langdetect_detect requests_get BeautifulSoup rows completed in
  match results with
  | [] => Raise (Exc "'status'")
  | _ => print_and_return (length rows) results
  end.

(** [results_df_slim.to_csv("generated/ai_safety_language_analysis.csv",
    index=False)], where [results_df_slim] is the frame of the results
    without its [language_options] column: the file system decides whether
    the call returns or raises (it raises when the directory [generated]
    is missing). *)
Variable to_csv : list SiteResult -> outcome unit.

(** [with open("generated/ai_safety_language_full_analysis.json", "w")
    as f: json.dump(results, f, indent=2)] *)
Variable json_dump : list SiteResult -> outcome unit.

(** A call of [analyze_ai_safety_organizations] once the results are
    collected, step by step: the counts, the three prints that divide by
    [total_success], the two files, and the dictionary. *)
Definition analyze_ai_safety_organizations_call
  (rows : list Org) (completed : list nat) : outcome Stats :=
  let results :=
    analyze_ai_safety_organizations
      str_ langdetect_detect requests_get BeautifulSoup rows completed in
  match results with
  | [] => Raise (Exc "'status'")
  | _ =>
      _ ← percent (english_sites results) (total_success results);
      _ ← percent (sites_with_language_options results)
                  (total_success results);
      _ ← percent (sites_with_non_english_resources results)
                  (total_success results);
      _ ← to_csv results;
      _ ← json_dump results;
      mret {| total_orgs := length rows;
              successful_analysis := total_success results;
              english_percent :=
                guarded_percent (english_sites results)
                                (total_success results);
              multilingual_percent :=
                guarded_percent (sites_with_language_options results)
                                (total_success results);
              non_english_resources_percent :=
                guarded_percent (sites_with_non_english_resources results)
                                (total_success results) |}
  end.

End Statistics.

(** ** The link extraction of [ais_map_orgs.py] *)

Module PyStr.

(** [s.split(sep)] for a separator that is not empty.  [skip] counts the
    bytes of a separator just found that are still to be passed over. *)
Fixpoint split_on (sep s : string) (skip : nat) : list string :=
  match s with
  | EmptyString => [EmptyString]
  | String c t =>
      match skip with
      | S skip' => split_on sep t skip'
      | 0 =>
          if String.prefix sep s
          then EmptyString :: split_on sep t (String.length sep - 1)
          else match split_on sep t 0 with
               | [] => [String c EmptyString]
               | w :: ws => String c w :: ws
               end
      end
  end.

Definition split (sep s : string) : list string := split_on sep s 0.

(** [s.replace(old, new)] for an [old] that is not empty *)
Fixpoint replace_on (old new s : string) (skip : nat) : string :=
  match s with
  | EmptyString => EmptyString
  | String c t =>
      match skip with
      | S skip' => replace_on old new t skip'
      | 0 =>
          if String.prefix old s
          then new ++ replace_on old new t (String.length old - 1)
          else String c (replace_on old new t 0)
      end
  end.

Definition replace (old new s : string) : string := replace_on old new s 0.

End PyStr.

(** What the browser gives for one [a] element of the grid.  Each call
    to the browser may raise. *)
Record WebElement := {
  (** [link.get_attribute("href")["baseVal"]] *)
  href_baseVal : outcome string;
  (** [link.text] *)
  link_text : outcome string;
  (** [elem.text] for each [elem] of [link.find_elements(By.XPATH, ".//div")] *)
  div_texts : outcome (list (outcome string))
}.

(** [url and (url.startswith("http://") or url.startswith("https://"))] *)
Definition is_external (url : string) : bool :=
  negb (String.eqb url "")
  && (Py.startswith url "http://" || Py.startswith url "https://").

(** The loop over [text_elements]: the text of the first element whose
    text is not blank, and the empty text when there is none *)
Fixpoint first_div_text (elems : list (outcome string)) : outcome string :=
  match elems with
  | [] => Return ""
  | elem :: rest =>
      elem_text ← elem;
      if negb (String.eqb (Py.strip elem_text) "")
      then Return (Py.strip elem_text)
      else first_div_text rest
  end.

(** [url.split("//")[1].split("/")[0].replace("www.", "")] *)
Definition domain_of (url : string) : outcome string :=
  match PyStr.split "//" url !! 1 with
  | Some rest =>
      Return (PyStr.replace "www." "" (List.hd "" (Py.split "/" rest)))
  | None => Raise (Exc "list index out of range")
  end.

(** The body of the [try] of the loop over the links: [None] stands for
    [continue]. *)
Definition link_organization (link : WebElement) : outcome (option Org) :=
  href ← href_baseVal link;
  let url := Py.strip href in
  if negb (is_external url) then Return None
  else
    raw_text ← link_text link;
    text ← (if String.eqb (Py.strip raw_text) ""
            then text_elements ← div_texts link; first_div_text text_elements
            else Return (Py.strip raw_text));
    text ← (if String.eqb text "" then domain_of url else Return text);
    Return (Some {| org_name := text; org_url := url |}).

(** [organizations] after the loop: a link whose body raises is reported
    and passed over. *)
Definition organizations (links : list WebElement) : list Org :=
  flat_map (fun link =>
              match link_organization link with
              | Return (Some organization) => [organization]
              | Return None => []
              | Raise _ => []
              end) links.

(** ** Further examples *)

(** A stand-in for the floating point quotient in the examples: the two
    integers it is computed from *)
Definition ratio (a b : nat) : nat * nat := (a, b).

(** A file that is written, and the answer of [to_csv] when the directory
    [generated] does not exist *)
Definition written (results : list SiteResult) : outcome unit := Return tt.

Definition no_directory (results : list SiteResult) : outcome unit :=
  Raise (Exc "Cannot save file into a non-existent directory: 'generated'").

(** A page whose head holds <meta http-equiv="content-language"
    content="fr-CA"> *)
Definition page_with_meta : node :=
  document
    [elem "html" []
       [elem "head" []
          [elem "meta" [("http-equiv", "content-language");
                        ("content", "fr-CA")] []];
        elem "body" [] []]].

(** A paragraph of 106 characters *)
Definition long_paragraph : node :=
  elem "p" []
    [txt ("Ceci est un paragraphe assez long pour que le texte de la "
          ++ "page soit soumis au détecteur de langue du site.")].

(** A guesser that answers "fr" on long texts and "xx" on the others *)
Definition guess_fr (text : string) : outcome string :=
  if (100 <? Py.len text)%nat then Return "fr" else Return "xx".

(** A guesser that answers "fr" on every text *)
Definition always_fr (text : string) : outcome string := Return "fr".

(** A link of the map with an address and no text of its own *)
Definition map_link : WebElement :=
  {| href_baseVal := Return " https://www.example.org/about ";
     link_text := Return "  ";
     div_texts := Return [Return " "; Return " Example Org "] |}.

(** A link for which the browser fails *)
Definition stale_link : WebElement :=
  {| href_baseVal := Raise (Exc "stale element reference");
     link_text := Return "Gone";
     div_texts := Return [] |}.

(** * Properties *)

(** ** The string functions at work *)

Example lower_fr_CA : Py.lower "fr-CA" = "fr-ca".
Proof. reflexivity. Qed.

Example lower_names :
  Py.lower "ESPAÑOL Français РУССКИЙ 中文" = "español français русский 中文".
Proof. vm_compute. reflexivity. Qed.

Example len_counts_characters :
  Py.len "español" = 7 /\ Py.len "русский" = 7 /\ Py.len "中文" = 2.
Proof. vm_compute. auto. Qed.

Example take_cuts_at_characters :
  Py.take 4 "español" = "espa" /\ Py.take 1 "中文" = "中"
  /\ Py.take 200 "abc" = "abc".
Proof. vm_compute. auto. Qed.

(** A no-break space, a space and a line feed around a text *)
Example strip_white_space :
  Py.strip (String (Py.byte 194) (String (Py.byte 160) " Français ")
            ++ String "010" "")
  = "Français".
Proof. vm_compute. reflexivity. Qed.

Example split_fr_ca : Py.split "-" "fr-ca" = ["fr"; "ca"].
Proof. reflexivity. Qed.

Example split_no_sep : Py.split "-" "fr" = ["fr"].
Proof. reflexivity. Qed.

Example strip_spaces : Py.strip "  a b  " = "a b".
Proof. reflexivity. Qed.

Example contains_empty : Py.contains "" "" = true.
Proof. reflexivity. Qed.

Example join_two : Py.join " " ["a"; "b"] = "a b".
Proof. reflexivity. Qed.

Example search_path_fr : Re.search_path "https://x.org/fr/about" = Some "fr".
Proof. reflexivity. Qed.

Example search_path_region : Re.search_path "/en-us" = Some "en".
Proof. reflexivity. Qed.

Example search_path_none : Re.search_path "https://x.org/about" = None.
Proof. reflexivity. Qed.

Example search_param_language :
  Re.search_param "/p?a=1&language=de" = Some "de".
Proof. reflexivity. Qed.

(** ** Lemmas on strings *)

Section StringLemmas.

Lemma string_ind2 (P : string -> Prop) :
  P "" ->
  (forall c, P (String c "")) ->
  (forall c d t, P t -> P (String d t) -> P (String c (String d t))) ->
  forall s, P s.
Proof.
  intros H0 H1 H2.
  assert (H : forall s, P s /\ forall c, P (String c s)).
  { induction s as [|d t [IHt IHc]]; split; auto. }
  intros s. apply H.
Qed.

Lemma hyphen_code (c : ascii) :
  Ascii.eqb c "-" = (Py.code c =? 45)%N.
Proof.
  destruct c as [[] [] [] [] [] [] [] []]; reflexivity.
Qed.

Lemma code_byte (n : N) : (n < 256)%N -> Py.code (Py.byte n) = n.
Proof. apply N_ascii_embedding. Qed.

Lemma lower_char_hyphen (c : ascii) :
  Ascii.eqb (Py.lower_char c) "-" = Ascii.eqb c "-".
Proof.
  destruct c as [[] [] [] [] [] [] [] []]; reflexivity.
Qed.

(** Neither a letter of two bytes nor its lower case holds a hyphen. *)
Lemma lower_pair_hyphen (c d c' d' : ascii) :
  Py.lower_pair c d = Some (c', d') ->
  Ascii.eqb c "-" = false /\ Ascii.eqb d "-" = false
  /\ Ascii.eqb c' "-" = false /\ Ascii.eqb d' "-" = false.
Proof.
  unfold Py.lower_pair, Py.between. rewrite !hyphen_code. intros H.
  repeat match type of H with
         | context [(?a =? ?b)%N] =>
             destruct (N.eqb_spec a b); simpl in H
         | context [(?a <=? ?b)%N] =>
             destruct (N.leb_spec a b); simpl in H
         end;
    try discriminate H; injection H as <- <-;
    rewrite ?code_byte by lia; repeat split; apply N.eqb_neq; lia.
Qed.

Lemma prefix_hyphen (c : ascii) (t : string) :
  String.prefix "-" (String c t) = Ascii.eqb c "-".
Proof.
  destruct c as [[] [] [] [] [] [] [] []]; destruct t; reflexivity.
Qed.

Lemma contains_hyphen_cons (c : ascii) (t : string) :
  Py.contains "-" (String c t) = Ascii.eqb c "-" || Py.contains "-" t.
Proof.
  change (Py.contains "-" (String c t))
    with (String.prefix "-" (String c t) || Py.contains "-" t).
  now rewrite prefix_hyphen.
Qed.

Lemma lower_cons2 (c d : ascii) (t : string) :
  Py.lower (String c (String d t))
  = match Py.lower_pair c d with
    | Some (c', d') => String c' (String d' (Py.lower t))
    | None => String (Py.lower_char c) (Py.lower (String d t))
    end.
Proof. reflexivity. Qed.

Lemma contains_hyphen_lower (s : string) :
  Py.contains "-" (Py.lower s) = Py.contains "-" s.
Proof.
  induction s as [|c|c d t IHt IHd] using string_ind2.
  - reflexivity.
  - change (Py.lower (String c "")) with (String (Py.lower_char c) "").
    now rewrite !contains_hyphen_cons, lower_char_hyphen.
  - rewrite lower_cons2.
    destruct (Py.lower_pair c d) as [[c' d']|] eqn:E.
    + apply lower_pair_hyphen in E as (Hc & Hd & Hc' & Hd').
      rewrite !contains_hyphen_cons, Hc, Hd, Hc', Hd'. simpl. exact IHt.
    + rewrite (contains_hyphen_cons c).
      rewrite (contains_hyphen_cons (Py.lower_char c)).
      now rewrite lower_char_hyphen, IHd.
Qed.

(** [lower] works on each side of a hyphen. *)
Lemma lower_around_hyphen (p r : string) :
  Py.lower (p ++ "-" ++ r) = Py.lower p ++ "-" ++ Py.lower r.
Proof.
  assert (Hh : forall r, Py.lower (String "-" r) = String "-" (Py.lower r)).
  { intros [|d t]; [reflexivity|]. rewrite lower_cons2.
    destruct (Py.lower_pair "-" d) as [[c' d']|] eqn:E; [|reflexivity].
    apply lower_pair_hyphen in E as (Hc & _). discriminate. }
  induction p as [|c|c d t IHt IHd] using string_ind2.
  - apply Hh.
  - change (Py.lower (String c "" ++ "-" ++ r))
      with (Py.lower (String c (String "-" r))).
    rewrite lower_cons2.
    destruct (Py.lower_pair c "-") as [[c' d']|] eqn:E.
    + apply lower_pair_hyphen in E as (_ & Hd & _). discriminate.
    + now rewrite Hh.
  - change (Py.lower (String c (String d t) ++ "-" ++ r))
      with (Py.lower (String c (String d (t ++ "-" ++ r)))).
    rewrite !lower_cons2.
    destruct (Py.lower_pair c d) as [[c' d']|] eqn:E.
    + now rewrite IHt.
    + change (String d (t ++ "-" ++ r)) with (String d t ++ "-" ++ r).
      now rewrite IHd.
Qed.

Lemma split_hd (s : string) :
  List.hd "" (Py.split "-" s) = primary_subtag s.
Proof.
  induction s as [|c t IH]; [reflexivity|].
  cbn [Py.split primary_subtag].
  destruct (Ascii.eqb c "-"); [reflexivity|].
  destruct (Py.split "-" t) as [|w ws] eqn:E; simpl in *;
    now rewrite <- IH.
Qed.

Lemma primary_subtag_no_hyphen (s : string) :
  Py.contains "-" s = false -> primary_subtag s = s.
Proof.
  induction s as [|c t IH]; [reflexivity|].
  rewrite contains_hyphen_cons. intros [Hc Ht]%orb_false_iff.
  cbn [primary_subtag]. rewrite Hc. now rewrite IH.
Qed.

Lemma primary_subtag_app (p r : string) :
  Py.contains "-" p = false -> primary_subtag (p ++ "-" ++ r) = p.
Proof.
  induction p as [|c t IH]; [reflexivity|].
  rewrite contains_hyphen_cons. intros [Hc Ht]%orb_false_iff.
  change (primary_subtag (String c t ++ "-" ++ r))
    with (if Ascii.eqb c "-" then EmptyString
          else String c (primary_subtag (t ++ "-" ++ r))).
  rewrite Hc. f_equal. now apply IH.
Qed.

(** The two branches of the source, [split] when there is a hyphen and
    the tag itself when there is none, are one function. *)
Lemma truncate_region (s : string) :
  (if Py.contains "-" s then List.hd "" (Py.split "-" s) else s)
  = primary_subtag s.
Proof.
  destruct (Py.contains "-" s) eqn:E.
  - apply split_hd.
  - symmetry. now apply primary_subtag_no_hyphen.
Qed.

Lemma string_prefix_nil (s : string) : String.prefix "" s = true.
Proof. now destruct s. Qed.

Lemma string_prefix_cons (a b : ascii) (p s : string) :
  String.prefix (String a p) (String b s)
  = Ascii.eqb a b && String.prefix p s.
Proof.
  simpl. destruct (ascii_dec a b) as [->|Hne].
  - now rewrite Ascii.eqb_refl.
  - apply Ascii.eqb_neq in Hne. now rewrite Hne.
Qed.

Lemma string_prefix_app (p s : string) :
  String.prefix p s = true <-> exists rest, s = p ++ rest.
Proof.
  revert s. induction p as [|a p IH]; intros s.
  - rewrite string_prefix_nil. split; [intros _; now exists s|reflexivity].
  - destruct s as [|b s].
    + split; [discriminate|]. intros (rest & [=]).
    + rewrite string_prefix_cons, andb_true_iff, IH. split.
      * intros [->%Ascii.eqb_eq (rest & ->)]. now exists rest.
      * intros (rest & [= -> ->]). rewrite Ascii.eqb_refl. eauto.
Qed.

Lemma string_app_assoc (s t u : string) : (s ++ t) ++ u = s ++ t ++ u.
Proof.
  induction s as [|c s IH]; [reflexivity|].
  change (String c ((s ++ t) ++ u) = String c (s ++ t ++ u)).
  now rewrite IH.
Qed.

End StringLemmas.

(** ** The primary language *)

Section PrimaryLanguage.

Variable langdetect_detect : string -> outcome string.

Lemma html_lang_found (soup html_tag : node) (lang : string) :
  Soup.find "html" soup = Some html_tag ->
  Soup.attrs html_tag !! "lang" = Some lang ->
  html_lang soup = Some lang.
Proof.
  intros Hf Ha. unfold html_lang. rewrite Hf. exact Ha.
Qed.

(** C10: when the first html element has a lang attribute, the detector
    returns that value, lowercased and cut at its first hyphen, whatever
    the value is and whatever the meta tags, the text and the guesser
    are; for lang="" the result is the empty string. *)
Theorem declared_lang_returned_unvalidated
  (soup html_tag : node) (lang : string) :
  Soup.find "html" soup = Some html_tag ->
  Soup.attrs html_tag !! "lang" = Some lang ->
  detect_primary_language langdetect_detect soup
  = primary_subtag (Py.lower lang)
  /\ (lang = "" -> detect_primary_language langdetect_detect soup = "").
Proof.
  intros Hf Ha.
  assert (H : detect_primary_language langdetect_detect soup
              = primary_subtag (Py.lower lang)).
  { unfold detect_primary_language.
    rewrite (html_lang_found _ _ _ Hf Ha). apply truncate_region. }
  split; [exact H|]. intros ->. exact H.
Qed.

(** C7: when the lang attribute of the first html element reads xx-YY,
    a primary subtag without hyphen followed by a hyphen and a region,
    the detector returns the primary subtag in lower case, without
    looking at meta tags or text; for lang="fr-CA" it returns "fr". *)
Theorem region_subtag_dropped
  (soup html_tag : node) (primary region : string) :
  Soup.find "html" soup = Some html_tag ->
  Soup.attrs html_tag !! "lang" = Some (primary ++ "-" ++ region) ->
  Py.contains "-" primary = false ->
  detect_primary_language langdetect_detect soup = Py.lower primary
  /\ (Py.lower primary = primary ->
      detect_primary_language langdetect_detect soup = primary)
  /\ (primary = "fr" -> region = "CA" ->
      detect_primary_language langdetect_detect soup = "fr").
Proof.
  intros Hf Ha Hp.
  assert (H : detect_primary_language langdetect_detect soup
              = Py.lower primary).
  { unfold detect_primary_language.
    rewrite (html_lang_found _ _ _ Hf Ha), truncate_region.
    rewrite lower_around_hyphen. apply primary_subtag_app.
    now rewrite contains_hyphen_lower. }
  split; [exact H|]. split.
  - intros E. now rewrite H.
  - intros -> _. exact H.
Qed.

End PrimaryLanguage.

(** ** Non-English resources *)

Section Resources.

Variable str_ : node -> string.

(** The case-insensitive search finds the occurrences of a word, and
    nothing else. *)
Lemma ignorecase_letter_spec (c : ascii) (s rest : string) :
  Re.ignorecase_letter c s = Some rest
  <-> exists t, letter_ignoring_case c t /\ s = t ++ rest.
Proof.
  split.
  - destruct s as [|a s]; [discriminate|]. unfold Re.ignorecase_letter.
    destruct (Ascii.eqb (Py.lower_char a) c) eqn:Ea.
    { intros [= <-]. exists (String a ""). split; [|reflexivity].
      left. exists a. split; [reflexivity|]. now apply Ascii.eqb_eq. }
    destruct (Ascii.eqb c "i") eqn:Ei.
    { apply Ascii.eqb_eq in Ei as ->. cbn [andb].
      destruct (String.prefix "İ" (String a s)) eqn:E1.
      - apply string_prefix_app in E1 as (r & ->). intros [= <-].
        exists "İ". split; [|reflexivity]. right. left. auto.
      - destruct (String.prefix "ı" (String a s)) eqn:E2.
        + apply string_prefix_app in E2 as (r & ->). intros [= <-].
          exists "ı". split; [|reflexivity]. right. left. auto.
        + discriminate. }
    destruct (Ascii.eqb c "s") eqn:Es.
    { apply Ascii.eqb_eq in Es as ->. cbn [andb].
      destruct (String.prefix "ſ" (String a s)) eqn:E1.
      - apply string_prefix_app in E1 as (r & ->). intros [= <-].
        exists "ſ". split; [|reflexivity]. right. right. left. auto.
      - discriminate. }
    destruct (Ascii.eqb c "k") eqn:Ek.
    { apply Ascii.eqb_eq in Ek as ->. cbn [andb].
      destruct (String.prefix Re.kelvin_sign (String a s)) eqn:E1.
      - apply string_prefix_app in E1 as (r & ->). intros [= <-].
        exists Re.kelvin_sign. split; [|reflexivity].
        right. right. right. auto.
      - discriminate. }
    discriminate.
  - intros (t & Ht & ->).
    destruct Ht as [(a & -> & Ha)|[(-> & [-> | ->])|[(-> & ->)|(-> & ->)]]].
    + change (String a "" ++ rest) with (String a rest).
      unfold Re.ignorecase_letter. now rewrite Ha, Ascii.eqb_refl.
    + now destruct rest.
    + now destruct rest.
    + now destruct rest.
    + now destruct rest.
Qed.

Lemma ignorecase_at_spec (word s : string) :
  Re.ignorecase_at word s = true
  <-> exists middle after,
        s = middle ++ after /\ same_ignoring_case word middle.
Proof.
  revert s. induction word as [|c word IH]; intros s.
  - split; [|reflexivity]. intros _. exists "", s. split; [reflexivity|].
    constructor.
  - cbn [Re.ignorecase_at]. split.
    + destruct (Re.ignorecase_letter c s) as [rest|] eqn:E; [|discriminate].
      intros (m & after & -> & Hm)%IH.
      apply ignorecase_letter_spec in E as (t & Ht & ->).
      exists (t ++ m), after. split; [now rewrite string_app_assoc|].
      now constructor.
    + intros (m & after & -> & Hm). inversion Hm as [|c' w t text Ht Hw]; subst.
      assert (E : Re.ignorecase_letter c ((t ++ text) ++ after)
                  = Some (text ++ after)).
      { apply ignorecase_letter_spec. exists t. split; [exact Ht|].
        apply string_app_assoc. }
      rewrite E. apply IH. eauto.
Qed.

Lemma ignorecase_search_spec (word s : string) :
  Re.ignorecase_search word s = true <-> occurs_ignoring_case word s.
Proof.
  unfold occurs_ignoring_case. induction s as [|c s IH].
  - cbn [Re.ignorecase_search]. rewrite orb_false_r, ignorecase_at_spec.
    split.
    + intros (m & a & E & H). now exists "", m, a.
    + intros (b & m & a & E & H). destruct b; [|discriminate].
      now exists m, a.
  - cbn [Re.ignorecase_search]. rewrite orb_true_iff, ignorecase_at_spec, IH.
    split.
    + intros [(m & a & E & H)|(b & m & a & E & H)].
      * now exists "", m, a.
      * exists (String c b), m, a. split; [|exact H]. now rewrite E.
    + intros (b & m & a & E & H). destruct b as [|c' b].
      * left. now exists m, a.
      * right. injection E as <- E. now exists b, m, a.
Qed.

Lemma resource_re_spec (s : string) :
  resource_re s = true
  <-> exists word,
        In word ["resource"; "publication"; "paper"; "documentation"]
        /\ occurs_ignoring_case word s.
Proof.
  unfold resource_re, resource_words. rewrite existsb_exists.
  split; intros (w & Hw & H); exists w; (split; [exact Hw|]);
    now apply ignorecase_search_spec.
Qed.

Lemma resource_class_spec (classes : list string) :
  Soup.list_matches resource_re classes = true <-> resource_class classes.
Proof.
  unfold Soup.list_matches, resource_class.
  rewrite orb_true_iff, existsb_exists, resource_re_spec. split.
  - intros [(token & Ht & (w & Hw & H)%resource_re_spec)|(w & Hw & H)];
      exists w; (split; [exact Hw|]); [left; eauto|now right].
  - intros (w & Hw & [(token & Ht & H)|H]).
    + left. exists token. split; [exact Ht|]. apply resource_re_spec. eauto.
    + right. eauto.
Qed.

Lemma in_find_all (names : list string) (soup n : node) :
  In n (Soup.find_all names soup)
  <-> In n (Soup.descendants soup)
      /\ exists name attrs list_attrs contents,
           n = Tag name attrs list_attrs contents /\ In name names.
Proof.
  unfold Soup.find_all. rewrite List.filter_In. unfold Soup.named.
  split.
  - intros [Hd [Ht Hn%bool_decide_eq_true]%andb_true_iff].
    split; [exact Hd|]. destruct n as [nm a l cs|]; [|discriminate].
    exists nm, a, l, cs. split; [reflexivity|]. now apply list_elem_of_In.
  - intros [Hd (nm & a & l & cs & -> & Hn)]. split; [exact Hd|].
    apply andb_true_iff. split; [reflexivity|].
    apply bool_decide_eq_true. now apply list_elem_of_In.
Qed.

Lemma in_links_with_href (soup a : node) :
  In a (links_with_href soup)
  <-> exists href, hyperlink soup a href /\ Soup.get a "href" = href.
Proof.
  unfold links_with_href, hyperlink.
  rewrite List.filter_In, in_find_all, bool_decide_eq_true. split.
  - intros [[Hd (nm & at_ & l & cs & -> & [<-|[]])] [href Hh]].
    exists href. split.
    + split; [exact Hd|]. now exists at_, l, cs.
    + unfold Soup.get. simpl in *. now rewrite Hh.
  - intros (href & [Hd (at_ & l & cs & -> & Hh)] & _). split.
    + split; [exact Hd|]. exists "a", at_, l, cs. split; [reflexivity|].
      now left.
    + now exists href.
Qed.

Lemma in_resource_sections (soup section : node) :
  In section (resource_sections soup) <-> resource_container soup section.
Proof.
  unfold resource_sections, resource_container.
  rewrite List.filter_In, in_find_all. split.
  - intros [[Hd (nm & at_ & l & cs & -> & Hn)] Hc]. split; [exact Hd|].
    simpl in Hc. destruct (l !! "class") as [classes|] eqn:E; [|discriminate].
    exists nm, at_, l, cs, classes. split; [reflexivity|].
    split; [|split; [exact E|now apply resource_class_spec]].
    destruct Hn as [<-|[<-|[]]]; auto.
  - intros [Hd (nm & at_ & l & cs & classes & -> & Hn & E & Hc)]. split.
    + split; [exact Hd|]. exists nm, at_, l, cs. split; [reflexivity|].
      destruct Hn as [-> | ->]; simpl; auto.
    + simpl. rewrite E. now apply resource_class_spec.
Qed.

Lemma length_pos_iff {A : Type} (l : list A) :
  (0 <? length l)%nat = true <-> exists x, In x l.
Proof.
  destruct l as [|x l]; simpl; split.
  - discriminate.
  - intros [x []].
  - intros _. exists x. now left.
  - reflexivity.
Qed.

(** The entries a double loop appends: one for each element of the outer
    list and each indicator that passes the test. *)
Lemma in_double_loop {A B : Type} (p : A -> string -> bool)
  (f : A -> string -> B) (outer : list A) (inner : list string) (x : B) :
  In x (flat_map
          (fun a => flat_map (fun i => if p a i then [f a i] else [])
                             inner) outer)
  <-> exists a i, In a outer /\ In i inner /\ p a i = true /\ x = f a i.
Proof.
  rewrite in_flat_map. split.
  - intros (a & Ha & Hx). apply in_flat_map in Hx as (i & Hi & Hx).
    destruct (p a i) eqn:E; simpl in Hx; [|contradiction].
    destruct Hx as [<-|[]]. now exists a, i.
  - intros (a & i & Ha & Hi & Hp & ->). exists a. split; [exact Ha|].
    apply in_flat_map. exists i. split; [exact Hi|].
    rewrite Hp. now left.
Qed.

Lemma indicators_exist (soup : node) :
  (exists x, In x (non_english_indicators str_ soup))
  <-> exists indicator, In indicator language_indicators /\
        ((exists a, In a (links_with_href soup)
                    /\ link_indicator a indicator = true)
         \/ (exists section, In section (resource_sections soup)
                             /\ section_indicator section indicator = true)).
Proof.
  unfold non_english_indicators. split.
  - intros (x & [Hx|Hx]%in_app_or).
    + apply in_double_loop in Hx as (a & i & Ha & Hi & Hp & _).
      exists i. split; [exact Hi|]. left. now exists a.
    + apply in_double_loop in Hx as (s & i & Hs & Hi & Hp & _).
      exists i. split; [exact Hi|]. right. now exists s.
  - intros (i & Hi & [(a & Ha & Hp)|(s & Hs & Hp)]).
    + exists (link_with_language i (Py.take 100 (str_ a))).
      apply in_or_app. left.
      apply (in_double_loop link_indicator
               (fun a i => link_with_language i (Py.take 100 (str_ a)))).
      now exists a, i.
    + exists (resource_section i (Py.take 100 (Soup.get_text s))).
      apply in_or_app. right.
      apply (in_double_loop section_indicator
               (fun s i => resource_section i
                             (Py.take 100 (Soup.get_text s)))).
      now exists s, i.
Qed.

(** C9: with a primary language other than "en" and "unknown" the
    detector answers true for every document, whatever its links and
    sections.  With "en" or "unknown" it answers true exactly when one of
    the fourteen language indicators occurs in the lower-cased href or
    text of a hyperlink (an [a] element of the document that has an href),
    or in the lower-cased text of a resource section (a [section] or [div]
    element of the document whose class attribute holds one of the words
    resource, publication, paper, documentation, letter case ignored):
    one occurrence is enough. *)
Theorem resources_short_circuit_or_single_indicator
  (soup : node) (primary_language : string) :
  (primary_language <> "en" -> primary_language <> "unknown" ->
   check_for_non_english_resources str_ soup primary_language = true)
  /\
  (primary_language = "en" \/ primary_language = "unknown" ->
   (check_for_non_english_resources str_ soup primary_language = true
    <-> exists indicator,
          In indicator
             [ "/es/"; "/fr/"; "/de/"; "/zh/"; "/ru/"; "/ja/"; "/ar/";
               "español"; "français"; "deutsch"; "中文"; "русский";
               "日本語"; "العربية" ]
          /\ ((exists a href,
                 hyperlink soup a href
                 /\ (Py.contains indicator (Py.lower href) = true
                     \/ Py.contains indicator (Py.lower (Soup.get_text a))
                        = true))
              \/ (exists section,
                    resource_container soup section
                    /\ Py.contains indicator
                         (Py.lower (Soup.get_text section)) = true)))).
Proof.
  unfold check_for_non_english_resources. split.
  - intros Hen Hun.
    apply String.eqb_neq in Hen, Hun. now rewrite Hen, Hun.
  - intros Hpl.
    assert (negb (String.eqb primary_language "en")
            && negb (String.eqb primary_language "unknown") = false) as ->.
    { destruct Hpl as [-> | ->]; reflexivity. }
    rewrite length_pos_iff, indicators_exist.
    change language_indicators
      with [ "/es/"; "/fr/"; "/de/"; "/zh/"; "/ru/"; "/ja/"; "/ar/";
             "español"; "français"; "deutsch"; "中文"; "русский";
             "日本語"; "العربية" ].
    split; intros (i & Hi & H); exists i; (split; [exact Hi|]).
    + destruct H as [(a & Ha & Hp)|(s & Hs & Hp)]; [left|right].
      * apply in_links_with_href in Ha as (href & Ha & Hg).
        exists a, href. split; [exact Ha|].
        unfold link_indicator in Hp. rewrite Hg in Hp.
        now apply orb_true_iff in Hp.
      * exists s. split; [now apply in_resource_sections|exact Hp].
    + destruct H as [(a & href & Ha & Hp)|(s & Hs & Hp)]; [left|right].
      * assert (Hg : Soup.get a "href" = href).
        { destruct Ha as [_ (at_ & l & cs & -> & Hh)].
          unfold Soup.get. simpl. now rewrite Hh. }
        exists a. split.
        -- apply in_links_with_href. now exists href.
        -- unfold link_indicator. rewrite Hg. now apply orb_true_iff.
      * exists s. split; [now apply in_resource_sections|exact Hp].
Qed.

End Resources.

(** ** The site classifier *)

Section Classifier.

Variable str_ : node -> string.
Variable langdetect_detect : string -> outcome string.
Variable requests_get : string -> outcome Response.
Variable BeautifulSoup : string -> outcome node.

Local Abbreviation analyze :=
  (analyze_website str_ langdetect_detect requests_get BeautifulSoup).
Local Abbreviation analyze_try :=
  (analyze_website_try str_ langdetect_detect requests_get BeautifulSoup).
Local Abbreviation classify_doc := (classify str_ langdetect_detect).

(** The return paths of [analyze_website], one by one *)

Lemma analyze_fetch_raises (org : Org) (e : Exception) :
  requests_get (org_url org) = Raise e ->
  analyze org = exception_error org e.
Proof.
  intros H. unfold analyze_website, analyze_website_try.
  now rewrite H.
Qed.

Lemma analyze_status_not_200 (org : Org) (response : Response) :
  requests_get (org_url org) = Return response ->
  status_code response <> 200%Z ->
  analyze org = status_error org (status_code response).
Proof.
  intros H Hc. unfold analyze_website, analyze_website_try.
  rewrite H. simpl. apply Z.eqb_neq in Hc. now rewrite Hc.
Qed.

Lemma analyze_parse_raises (org : Org) (response : Response)
  (e : Exception) :
  requests_get (org_url org) = Return response ->
  status_code response = 200%Z ->
  BeautifulSoup (text response) = Raise e ->
  analyze org = exception_error org e.
Proof.
  intros H Hc Hp. unfold analyze_website, analyze_website_try.
  rewrite H. simpl. rewrite Hc. simpl. now rewrite Hp.
Qed.

Lemma analyze_parsed (org : Org) (response : Response) (soup : node) :
  requests_get (org_url org) = Return response ->
  status_code response = 200%Z ->
  BeautifulSoup (text response) = Return soup ->
  analyze org = classify_doc org soup.
Proof.
  intros H Hc Hp. unfold analyze_website, analyze_website_try.
  rewrite H. simpl. rewrite Hc. simpl. now rewrite Hp.
Qed.

(** Every call takes one of the four paths. *)
Lemma analyze_paths (org : Org) :
  (exists e, analyze org = exception_error org e)
  \/ (exists code, analyze org = status_error org code)
  \/ (exists soup, analyze org = classify_doc org soup).
Proof.
  destruct (requests_get (org_url org)) as [response|e] eqn:H.
  - destruct (Z.eq_dec (status_code response) 200%Z) as [Hc|Hc].
    + destruct (BeautifulSoup (text response)) as [soup|e] eqn:Hp.
      * right. right. exists soup. now apply (analyze_parsed _ response).
      * left. exists e. now apply (analyze_parse_raises _ response).
    + right. left. exists (status_code response).
      now apply analyze_status_not_200.
  - left. exists e. now apply analyze_fetch_raises.
Qed.

(** C3, as the code has it: the responses treated as failures of the
    site are those whose status code is not 200.  Such a response gives
    the error result that carries the status code, whatever the parser
    and the detectors would do; a response with status code 200 is
    parsed, and the result is that of the three detection steps on the
    parsed document. *)
Theorem only_status_200_is_analysed (org : Org) (response : Response) :
  requests_get (org_url org) = Return response ->
  (status_code response <> 200%Z ->
   analyze org = status_error org (status_code response)
   /\ r_status (analyze org) = error
   /\ r_status_code (analyze org) = Some (status_code response))
  /\
  (status_code response = 200%Z ->
   forall soup, BeautifulSoup (text response) = Return soup ->
     analyze org = classify_doc org soup
     /\ r_status (analyze org) = success
     /\ r_primary_language (analyze org)
        = Some (detect_primary_language langdetect_detect soup)
     /\ r_language_options (analyze org)
        = detect_language_options str_ soup
     /\ r_has_non_english_resources (analyze org)
        = check_for_non_english_resources
            str_ soup (detect_primary_language langdetect_detect soup)).
Proof.
  intros H. split.
  - intros Hc. now rewrite (analyze_status_not_200 _ _ H Hc).
  - intros Hc soup Hp. now rewrite (analyze_parsed _ _ _ H Hc Hp).
Qed.

(** C4: on each of its return paths [analyze_website] gives a result
    whose has_language_options is the test len(language_options) > 0 and
    whose primary_language is None exactly when the status is "error";
    a successful result for a document with no lang attribute, no
    content-language meta tag and no guess from the text has the
    primary language "unknown". *)
Theorem result_invariant (org : Org) :
  r_has_language_options (analyze org)
  = (0 <? length (r_language_options (analyze org)))%nat
  /\ (r_primary_language (analyze org) = None
      <-> r_status (analyze org) = error)
  /\ (forall response soup,
        requests_get (org_url org) = Return response ->
        status_code response = 200%Z ->
        BeautifulSoup (text response) = Return soup ->
        html_lang soup = None ->
        meta_content soup = None ->
        (from_text langdetect_detect soup = None
         \/ exists e, from_text langdetect_detect soup = Some (Raise e)) ->
        r_status (analyze org) = success
        /\ r_primary_language (analyze org) = Some "unknown").
Proof.
  split; [|split].
  - destruct (analyze_paths org) as [[e ->]|[[code ->]|[soup ->]]];
      reflexivity.
  - destruct (analyze_paths org) as [[e ->]|[[code ->]|[soup ->]]];
      simpl; split; intros; congruence.
  - intros response soup H Hc Hp Hh Hm Ht.
    rewrite (analyze_parsed _ _ _ H Hc Hp). simpl. split; [reflexivity|].
    unfold detect_primary_language. rewrite Hh, Hm.
    destruct Ht as [-> | [e ->]]; reflexivity.
Qed.

(** C5: [analyze_website] returns a result for every organization and
    every behaviour of the network, the parser and the guesser.  An
    exception raised by the request or by the parser, and so any
    exception that leaves the body of the try, becomes the result with
    status "error" whose error field is the text of the exception. *)
Theorem exceptions_become_error_results (org : Org) :
  (exists result, analyze org = result
                  /\ (analyze_try org = Return result
                      \/ exists e, analyze_try org = Raise e
                                   /\ result = exception_error org e))
  /\ (forall e, analyze_try org = Raise e ->
        r_status (analyze org) = error
        /\ r_error (analyze org) = Some (str_exc e)
        /\ r_primary_language (analyze org) = None
        /\ r_has_language_options (analyze org) = false
        /\ r_language_options (analyze org) = [])
  /\ (forall e, requests_get (org_url org) = Raise e ->
        analyze_try org = Raise e)
  /\ (forall response e,
        requests_get (org_url org) = Return response ->
        status_code response = 200%Z ->
        BeautifulSoup (text response) = Raise e ->
        analyze_try org = Raise e).
Proof.
  split; [|split; [|split]].
  - exists (analyze org). split; [reflexivity|].
    unfold analyze_website.
    destruct analyze_try as [result|e]; [now left|].
    right. now exists e.
  - intros e He. unfold analyze_website. now rewrite He.
  - intros e He. unfold analyze_website_try. now rewrite He.
  - intros response e H Hc Hp. unfold analyze_website_try.
    rewrite H. simpl. rewrite Hc. simpl. now rewrite Hp.
Qed.

End Classifier.

(** ** The thread pool *)

Section Orchestrator.

Variable str_ : node -> string.
Variable langdetect_detect : string -> outcome string.
Variable requests_get : string -> outcome Response.
Variable BeautifulSoup : string -> outcome node.

Local Abbreviation analyze :=
  (analyze_website str_ langdetect_detect requests_get BeautifulSoup).
Local Abbreviation results :=
  (analyze_ai_safety_organizations
     str_ langdetect_detect requests_get BeautifulSoup).

Lemma lookup_numbered {A : Type} (l : list A) (k i : nat) :
  (list_to_map (imap (fun j x => (k + j, x)) l) : gmap nat A) !! (k + i)
  = l !! i.
Proof.
  revert k i. induction l as [|x l IH]; intros k i; [reflexivity|].
  cbn [imap list_to_map foldr uncurry fst snd].
  destruct i as [|i].
  - apply lookup_insert_eq.
  - rewrite lookup_insert_ne by lia.
    rewrite (imap_ext _ (fun j x => (S k + j, x))).
    + replace (k + S i) with (S k + i) by lia. apply IH.
    + intros j y _. simpl. f_equal. lia.
Qed.

(** The future of rank [i] is mapped to the row of rank [i]. *)
Lemma future_to_org_lookup (rows : list Org) (i : nat) :
  future_to_org rows !! i = rows !! i.
Proof.
  unfold future_to_org. apply (lookup_numbered rows 0 i).
Qed.

Lemma omap_seq_lookup {A B : Type} (g : A -> B) (l : list A) (k : nat)
  (h : nat -> option B) :
  (forall i, i < length l -> h (k + i) = g <$> l !! i) ->
  omap h (seq k (length l)) = g <$> l.
Proof.
  revert k. induction l as [|x l IH]; intros k Hh; [reflexivity|].
  cbn [length seq omap list_omap fmap list_fmap].
  specialize (Hh 0) as H0. rewrite Nat.add_0_r in H0.
  rewrite H0 by (simpl; lia). simpl. f_equal.
  apply IH. intros i Hi.
  replace (S k + i) with (k + S i) by lia.
  rewrite Hh by (simpl; lia). reflexivity.
Qed.

(** The futures that complete are those of ranks [0 .. N-1]. *)
Lemma completed_ranks (rows : list Org) (completed : list nat) :
  as_completed rows completed -> completed ≡ₚ seq 0 (length rows).
Proof.
  intros [Hnd Hall]. apply NoDup_Permutation.
  - exact Hnd.
  - apply NoDup_seq.
  - intros i. rewrite Hall, future_to_org_lookup, elem_of_seq.
    rewrite lookup_lt_is_Some. lia.
Qed.

(** C6: whatever the order in which the futures complete, and whatever
    the requests and the parser do, the list of results has one entry
    for each organization of the input: it is a permutation of the
    results of [analyze_website] on the rows, so it has N entries, and
    the result of each row, an error result included, is among them. *)
Theorem one_result_per_organization
  (rows : list Org) (completed : list nat) :
  as_completed rows completed ->
  results rows completed ≡ₚ map analyze rows
  /\ length (results rows completed) = length rows
  /\ (forall org, org ∈ rows -> analyze org ∈ results rows completed).
Proof.
  intros Hc.
  assert (Hp : results rows completed ≡ₚ map analyze rows).
  { unfold analyze_ai_safety_organizations.
    rewrite (completed_ranks _ _ Hc).
    erewrite (omap_seq_lookup analyze rows 0); [reflexivity|].
    intros i _. unfold future_result.
    now rewrite future_to_org_lookup. }
  split; [exact Hp|]. split.
  - rewrite Hp. apply length_map.
  - intros org Horg. rewrite Hp. now apply list_elem_of_fmap_2.
Qed.

End Orchestrator.

(** ** The language options *)

Section LanguageOptions.

Variable str_ : node -> string.

Lemma filter_none {A : Type} (p : A -> bool) (l : list A) :
  (forall x, In x l -> p x = false) -> List.filter p l = [].
Proof.
  induction l as [|x l IH]; intros H; [reflexivity|].
  simpl. rewrite (H x) by now left.
  apply IH. intros y Hy. apply H. now right.
Qed.

Lemma filter_all {A : Type} (p : A -> bool) (l : list A) :
  (forall x, In x l -> p x = true) -> List.filter p l = l.
Proof.
  induction l as [|x l IH]; intros H; [reflexivity|].
  simpl. rewrite (H x) by now left.
  f_equal. apply IH. intros y Hy. apply H. now right.
Qed.

Lemma alt_lang_spec (link : node) (code : string) :
  In code (alt_lang link)
  <-> code = Py.lower (Soup.get link "hreflang")
      /\ code <> "" /\ code <> "en" /\ code <> "x-default".
Proof.
  unfold alt_lang.
  destruct (String.eqb_spec (Py.lower (Soup.get link "hreflang")) "")
    as [E1|E1];
  destruct (String.eqb_spec (Py.lower (Soup.get link "hreflang")) "en")
    as [E2|E2];
  destruct (String.eqb_spec (Py.lower (Soup.get link "hreflang"))
                            "x-default") as [E3|E3];
  simpl; split; try (intros []; fail); try (intros (-> & ? & ? & ?); tauto).
  intros [<-|[]]. tauto.
Qed.

Lemma alt_langs_spec (soup : node) (code : string) :
  code ∈ alt_langs soup <-> declared_code soup code.
Proof.
  unfold alt_langs, declared_code.
  rewrite elem_of_list_to_set, list_elem_of_In, in_flat_map.
  split; intros (link & Hl & Hc); exists link;
    (split; [exact Hl|]); now apply alt_lang_spec.
Qed.

Lemma approach4_empty (soup : node) :
  approach4 soup = [] <-> alt_langs soup = ∅.
Proof.
  unfold approach4. case_bool_decide as H; split; intros E.
  - discriminate.
  - contradiction.
  - destruct (decide (alt_langs soup = ∅)); [assumption|contradiction].
  - reflexivity.
Qed.

(** The entries of the other approaches are of other kinds. *)
Lemma other_approaches_not_hreflang (soup : node) :
  List.filter is_alternate_hreflang (approach1 str_ soup) = []
  /\ List.filter is_alternate_hreflang (approach2 str_ soup) = []
  /\ List.filter is_alternate_hreflang (approach3 str_ soup) = []
  /\ List.filter is_alternate_hreflang (gt_element_options str_ soup) = []
  /\ List.filter is_alternate_hreflang (gt_script_options soup) = [].
Proof.
  repeat split; apply filter_none; intros o Ho.
  - apply in_flat_map in Ho as (select & _ & Ho).
    unfold select_options in Ho.
    repeat match type of Ho with
           | In _ (if ?b then _ else _) => destruct b
           end; simpl in Ho; [destruct Ho as [<-|[]]; reflexivity|..];
      contradiction.
  - apply in_flat_map in Ho as (nav & _ & Ho).
    unfold nav_options in Ho.
    repeat match type of Ho with
           | In _ (if ?b then _ else _) => destruct b
           end; simpl in Ho;
      try contradiction; destruct Ho as [<-|[]]; reflexivity.
  - apply in_flat_map in Ho as (pattern & _ & Ho).
    unfold id_pattern_options in Ho.
    destruct (Soup.find_id pattern soup); [|contradiction].
    match type of Ho with
    | In _ (if ?b then _ else _) => destruct b
    end; simpl in Ho; [destruct Ho as [<-|[]]; reflexivity|contradiction].
  - unfold gt_element_options in Ho.
    destruct (Soup.find_id _ soup); simpl in Ho; [|contradiction].
    destruct Ho as [<-|[]]; reflexivity.
  - unfold gt_script_options in Ho.
    destruct (existsb _ _); simpl in Ho; [|contradiction].
    destruct Ho as [<-|[]]; reflexivity.
Qed.

Lemma approach4_all_hreflang (soup : node) :
  List.filter is_alternate_hreflang (approach4 soup) = approach4 soup.
Proof.
  unfold approach4. now case_bool_decide.
Qed.

(** C8, as the code has it: the hreflang values of the alternate links
    are read in lower case, and the empty value is left out with "en"
    and "x-default".  No signal is emitted when every value is, in lower
    case, empty, "en" or "x-default" (so when every value is "en" or
    "x-default"); when some other code is declared, the detector emits
    one alternate_hreflang signal, the only one of the whole result,
    whose list holds each declared code once and whose count is the
    number of codes. *)
Theorem hreflang_signal_carries_declared_codes (soup : node) :
  ((forall link, In link (alternate_links soup) ->
      Py.lower (Soup.get link "hreflang") = ""
      \/ Py.lower (Soup.get link "hreflang") = "en"
      \/ Py.lower (Soup.get link "hreflang") = "x-default") ->
   List.filter is_alternate_hreflang (detect_language_options str_ soup)
   = [])
  /\
  ((forall link, In link (alternate_links soup) ->
      Soup.get link "hreflang" = "en"
      \/ Soup.get link "hreflang" = "x-default") ->
   List.filter is_alternate_hreflang (detect_language_options str_ soup)
   = [])
  /\
  ((exists code, declared_code soup code) ->
   exists languages,
     List.filter is_alternate_hreflang (detect_language_options str_ soup)
     = [alternate_hreflang languages (length languages)]
     /\ NoDup languages
     /\ forall code, code ∈ languages <-> declared_code soup code).
Proof.
  assert (Hf : List.filter is_alternate_hreflang
                 (detect_language_options str_ soup) = approach4 soup).
  { unfold detect_language_options.
    destruct (other_approaches_not_hreflang soup)
      as (H1 & H2 & H3 & H5 & H6).
    rewrite !List.filter_app, H1, H2, H3, H5, H6, approach4_all_hreflang.
    simpl. apply app_nil_r. }
  assert (Hlow : (forall link, In link (alternate_links soup) ->
                    Py.lower (Soup.get link "hreflang") = ""
                    \/ Py.lower (Soup.get link "hreflang") = "en"
                    \/ Py.lower (Soup.get link "hreflang") = "x-default") ->
                 approach4 soup = []).
  { intros Hall. apply approach4_empty. apply set_eq. intros code.
    rewrite alt_langs_spec. split; [|set_solver].
    intros (link & Hl & -> & H1 & H2 & H3).
    destruct (Hall link Hl) as [E|[E|E]]; congruence. }
  rewrite Hf. split; [exact Hlow|]. split.
  - intros Hall. apply Hlow. intros link Hl.
    destruct (Hall link Hl) as [-> | ->]; auto.
  - intros (code & Hcode).
    exists (elements (alt_langs soup)).
    unfold approach4. rewrite bool_decide_true.
    + split; [reflexivity|]. split; [apply NoDup_elements|].
      intros c. rewrite elem_of_elements. apply alt_langs_spec.
    + intros E. apply alt_langs_spec in Hcode. rewrite E in Hcode.
      set_solver.
Qed.

End LanguageOptions.

(** ** The select elements *)

Section Dropdowns.

Variable str_ : node -> string.

(** What a select of the document contributes is part of the result. *)
Lemma select_options_in_detector (soup select : node) (o : language_option) :
  In select (Soup.find_all ["select"] soup) ->
  In o (select_options str_ select) ->
  In o (detect_language_options str_ soup).
Proof.
  intros Hs Ho. unfold detect_language_options.
  apply in_or_app. left. unfold approach1.
  apply in_flat_map. now exists select.
Qed.

(** A select whose id, name or class holds one of the language tokens
    contributes nothing: the signal is appended only inside the branch
    taken when no token was found. *)
Lemma indicator_select_contributes_nothing (select : node) :
  has_lang_indicator select = true -> select_options str_ select = [].
Proof.
  intros H. unfold select_options. rewrite H. simpl.
  now destruct (_ && _).
Qed.

(** With between 2 and 15 options and no language token, the select is
    a signal exactly when two codes or two names match. *)
Lemma select_options_threshold (select : node) :
  has_lang_indicator select = false ->
  2 <= length (Soup.find_all ["option"] select) <= 15 ->
  select_options str_ select
  = if (2 <=? lang_code_matches (map Py.lower (raw_option_values select)))%nat
       || (2 <=? lang_name_matches (option_texts select))%nat
    then [language_select
            (lang_code_matches (map Py.lower (raw_option_values select)))
            (lang_name_matches (option_texts select))
            (Py.take 200 (str_ select))]
    else [].
Proof.
  intros Hi [Hlo Hhi]. unfold select_options.
  apply Nat.leb_le in Hlo, Hhi. rewrite Hlo, Hhi, Hi. simpl.
  unfold raw_option_values, option_texts. now rewrite map_map.
Qed.

(** C2, as the code has it: a select without language token in its id,
    name and class whose three option values are en, fr, de is a
    dropdown signal (3 code matches); the same select with the two
    values en and fr is a dropdown signal as well, since 2 code matches
    meet the threshold of 2; with a single matching value (en and xx)
    it is a signal only if at least 2 language names match the option
    texts. *)
Theorem two_code_matches_meet_threshold (soup select : node) :
  In select (Soup.find_all ["select"] soup) ->
  has_lang_indicator select = false ->
  (raw_option_values select = ["en"; "fr"; "de"] ->
   In (language_select 3 (lang_name_matches (option_texts select))
                       (Py.take 200 (str_ select)))
      (detect_language_options str_ soup))
  /\
  (raw_option_values select = ["en"; "fr"] ->
   In (language_select 2 (lang_name_matches (option_texts select))
                       (Py.take 200 (str_ select)))
      (detect_language_options str_ soup))
  /\
  (raw_option_values select = ["en"; "xx"] ->
   (select_options str_ select = []
    <-> lang_name_matches (option_texts select) < 2)).
Proof.
  intros Hs Hi.
  assert (Hlen : forall vs, raw_option_values select = vs ->
                   length (Soup.find_all ["option"] select) = length vs).
  { intros vs <-. unfold raw_option_values. now rewrite length_map. }
  split; [|split]; intros Hv;
    pose proof (Hlen _ Hv) as Hl; simpl in Hl;
    pose proof (select_options_threshold select Hi) as Ht;
    rewrite Hl, Hv in Ht; specialize (Ht ltac:(lia)).
  - apply (select_options_in_detector soup select); [exact Hs|].
    rewrite Ht. now left.
  - apply (select_options_in_detector soup select); [exact Hs|].
    rewrite Ht. now left.
  - rewrite Ht.
    change (lang_code_matches (map Py.lower ["en"; "xx"])) with 1.
    generalize (lang_name_matches (option_texts select)) as n.
    intros [|[|n]]; simpl; split; intros H;
      try reflexivity; try discriminate; lia.
Qed.

End Dropdowns.

(** ** The examples evaluated *)

Example menu_of_two_languages :
  detect_language_options render (page [language_menu_list])
  = [language_menu ["fr"; "de"] ["fr"; "de"]
       "<ul><li><a>Français</a></li><li><a>Deutsch</a></li></ul>"].
Proof. vm_compute. reflexivity. Qed.

Example google_translate_found :
  detect_language_options render (page translate_widget)
  = [ google_translate "<div></div>";
      google_translate_script "Google Translate implementation detected" ].
Proof. vm_compute. reflexivity. Qed.

Example switcher_found :
  detect_language_options render (page [switcher_button])
  = [id_exact_match "lang-switcher" "<div><button>EN</button></div>"].
Proof. vm_compute. reflexivity. Qed.

Example hreflang_codes_lowercased_and_distinct :
  detect_language_options render
    (page_with_links [alternate "fr"; alternate "FR"; alternate "de-DE";
                      alternate "en"; alternate "x-default"])
  = [alternate_hreflang ["fr"; "de-de"] 2].
Proof. vm_compute. reflexivity. Qed.

Example three_codes_signal :
  detect_language_options render (page [select_en_fr_de])
  = [language_select 3 0
       "<select><option>EN</option><option>FR</option><option>DE</option></select>"].
Proof. vm_compute. reflexivity. Qed.

Example primary_language_examples :
  detect_primary_language no_guess (html_with_lang "fr-CA") = "fr"
  /\ detect_primary_language no_guess (html_with_lang "EN") = "en"
  /\ detect_primary_language no_guess (html_with_lang "") = ""
  /\ detect_primary_language no_guess (page []) = "unknown".
Proof. vm_compute. auto. Qed.

Example resources_examples :
  check_for_non_english_resources render (page []) "de" = true
  /\ check_for_non_english_resources render (page []) "en" = false
  /\ check_for_non_english_resources render (page [french_link]) "en" = true
  /\ check_for_non_english_resources render (page [french_link]) "unknown"
     = true.
Proof. vm_compute. auto. Qed.

(** Resource sections: a [div] or [section] whose class holds one of the
    four words, in any letter case and also with the dotted capital I, the
    dotless i or the long s, is searched for indicators; an element with
    another class or another name is not. *)
Example resource_section_examples :
  check_for_non_english_resources render (page [french_publications]) "en"
  = true
  /\ check_for_non_english_resources render (page [dotted_publication]) "en"
     = true
  /\ check_for_non_english_resources
       render (page [container "div" ["reſources"] "Auf Deutsch"]) "unknown"
     = true
  /\ check_for_non_english_resources
       render (page [container "div" ["documentatıon"] "Auf Deutsch"]) "en"
     = true
  /\ check_for_non_english_resources
       render (page [container "div" ["content"] "Rapports en français"])
       "en" = false
  /\ check_for_non_english_resources
       render (page [container "span" ["papers"] "Rapports en français"])
       "en" = false
  /\ check_for_non_english_resources
       render (page [container "div" ["papers"] "Reports in English"]) "en"
     = false
  /\ resource_re "pa per" = false.
Proof. vm_compute. auto 10. Qed.

(** ** The properties at concrete inputs *)

(** C1: the select with id="language" and the two options a and b has
    between 2 and 15 options and a language token in its id, and the
    detector returns no signal for the page that holds it; the same
    happens to a select with id="lang" whose options are en, fr and de. *)
Theorem language_named_select_gives_no_signal :
  has_lang_indicator select_named_language = true
  /\ length (Soup.find_all ["option"] select_named_language) = 2
  /\ detect_language_options render (page [select_named_language]) = []
  /\ has_lang_indicator select_lang_picker = true
  /\ detect_language_options render (page [select_lang_picker]) = [].
Proof. vm_compute. auto. Qed.

(** C2: the select with the two option values en and fr, no language
    token and no language name in its texts is a dropdown signal. *)
Lemma two_codes_counterexample :
  has_lang_indicator select_en_fr = false
  /\ raw_option_values select_en_fr = ["en"; "fr"]
  /\ lang_name_matches (option_texts select_en_fr) = 0
  /\ detect_language_options render (page [select_en_fr])
     = [language_select 2 0
          "<select><option>EN</option><option>FR</option></select>"].
Proof. vm_compute. auto. Qed.

Lemma two_code_matches_meet_threshold_witness :
  In (language_select 3 (lang_name_matches (option_texts select_en_fr_de))
                      (Py.take 200 (render select_en_fr_de)))
     (detect_language_options render (page [select_en_fr_de]))
  /\ In (language_select 2 (lang_name_matches (option_texts select_en_fr))
                         (Py.take 200 (render select_en_fr)))
        (detect_language_options render (page [select_en_fr])).
Proof.
  pose proof (two_code_matches_meet_threshold
                render (page [select_en_fr_de]) select_en_fr_de) as H3.
  pose proof (two_code_matches_meet_threshold
                render (page [select_en_fr]) select_en_fr) as H2.
  destruct H3 as (H3 & _ & _);
    [vm_compute; auto | vm_compute; reflexivity |].
  destruct H2 as (_ & H2 & _);
    [vm_compute; auto | vm_compute; reflexivity |].
  split; [apply H3|apply H2]; vm_compute; reflexivity.
Defined.

(** C3: a response with the 2xx status code 204 gives the error result,
    and the document is not analysed. *)
Lemma status_204_counterexample :
  (200 <= 204 <= 299)%Z
  /\ analyze_website render no_guess
       (respond {| status_code := 204; text := "" |})
       (parse_as (html_with_lang "fr")) org0
     = status_error org0 204
  /\ r_status (analyze_website render no_guess
                 (respond {| status_code := 204; text := "" |})
                 (parse_as (html_with_lang "fr")) org0) = error.
Proof. split; [lia|]. split; reflexivity. Qed.

Lemma only_status_200_is_analysed_witness :
  r_status_code (analyze_website render no_guess
                   (respond {| status_code := 404; text := "" |})
                   (parse_as (html_with_lang "fr")) org0) = Some 404%Z
  /\ r_primary_language (analyze_website render no_guess
                           (respond ok_response)
                           (parse_as (html_with_lang "fr")) org0)
     = Some (detect_primary_language no_guess (html_with_lang "fr")).
Proof.
  pose proof (only_status_200_is_analysed
                render no_guess (respond {| status_code := 404; text := "" |})
                (parse_as (html_with_lang "fr")) org0
                {| status_code := 404; text := "" |} eq_refl)
    as (Herr & _).
  pose proof (only_status_200_is_analysed
                render no_guess (respond ok_response)
                (parse_as (html_with_lang "fr")) org0 ok_response eq_refl)
    as (_ & Hok).
  destruct Herr as (_ & _ & Hcode); [simpl; lia|].
  destruct (Hok eq_refl (html_with_lang "fr") eq_refl) as (_ & _ & Hpl & _).
  split; [exact Hcode|exact Hpl].
Defined.

Lemma result_invariant_witness :
  r_status (analyze_website render no_guess (respond ok_response)
              (parse_as (page [])) org0) = success
  /\ r_primary_language (analyze_website render no_guess
                           (respond ok_response) (parse_as (page [])) org0)
     = Some "unknown".
Proof.
  pose proof (result_invariant render no_guess (respond ok_response)
                (parse_as (page [])) org0) as (_ & _ & Hunknown).
  apply (Hunknown ok_response (page [])); try reflexivity.
  left. vm_compute. reflexivity.
Defined.

Lemma exceptions_become_error_results_witness :
  r_status (analyze_website render no_guess unreachable
              (parse_as (page [])) org0) = error
  /\ r_error (analyze_website render no_guess unreachable
                (parse_as (page [])) org0) = Some "Connection refused"
  /\ r_error (analyze_website render no_guess (respond ok_response)
                parse_fails org0) = Some "Malformed markup".
Proof.
  pose proof (exceptions_become_error_results
                render no_guess unreachable (parse_as (page [])) org0)
    as (_ & Hraise & Hfetch & _).
  pose proof (exceptions_become_error_results
                render no_guess (respond ok_response) parse_fails org0)
    as (_ & Hraise' & _ & Hparse).
  specialize (Hraise _ (Hfetch _ eq_refl)) as (Hs & He & _).
  specialize (Hraise' _ (Hparse ok_response _ eq_refl eq_refl eq_refl))
    as (_ & He' & _).
  split; [exact Hs|]. split; [exact He|exact He'].
Defined.

Lemma three_futures_completed :
  as_completed three_orgs [2; 0; 1].
Proof.
  split.
  - repeat (apply NoDup_cons_2;
            [rewrite ?elem_of_cons, elem_of_nil; lia|]).
    apply NoDup_nil_2.
  - intros future. rewrite future_to_org_lookup, lookup_lt_is_Some.
    simpl. rewrite !elem_of_cons, elem_of_nil. lia.
Qed.

Lemma one_result_per_organization_witness :
  length (analyze_ai_safety_organizations
            render no_guess unreachable parse_fails three_orgs [2; 0; 1]) = 3.
Proof.
  pose proof (one_result_per_organization
                render no_guess unreachable parse_fails three_orgs [2; 0; 1]
                three_futures_completed) as (_ & Hlen & _).
  exact Hlen.
Defined.

Lemma region_subtag_dropped_witness :
  detect_primary_language no_guess (html_with_lang "fr-CA") = "fr".
Proof.
  pose proof (region_subtag_dropped
                no_guess (html_with_lang "fr-CA")
                (elem "html" [("lang", "fr-CA")] [elem "body" [] []])
                "fr" "CA") as H.
  destruct H as (H & _ & _).
  - vm_compute. reflexivity.
  - vm_compute. reflexivity.
  - reflexivity.
  - exact H.
Defined.

(** C8: the alternate links of the page declare the hreflang values ""
    and "EN", neither of which is "en" or "x-default", and the detector
    emits no signal. *)
Lemma hreflang_counterexample :
  map (fun link => Soup.get link "hreflang")
      (alternate_links (page_with_links [alternate ""; alternate "EN"]))
  = [""; "EN"]
  /\ "" <> "en" /\ "" <> "x-default" /\ "EN" <> "en" /\ "EN" <> "x-default"
  /\ detect_language_options
       render (page_with_links [alternate ""; alternate "EN"]) = [].
Proof.
  split; [vm_compute; reflexivity|].
  repeat (split; [discriminate|]).
  vm_compute. reflexivity.
Qed.

Lemma french_declared :
  declared_code (page_with_links [alternate "FR"; alternate "en"]) "fr".
Proof.
  exists (alternate "FR"). split; [vm_compute; auto|].
  split; [reflexivity|]. repeat split; discriminate.
Qed.

Lemma hreflang_signal_carries_declared_codes_witness :
  exists languages,
    List.filter is_alternate_hreflang
      (detect_language_options
         render (page_with_links [alternate "FR"; alternate "en"]))
    = [alternate_hreflang languages (length languages)]
    /\ NoDup languages
    /\ forall code,
         code ∈ languages
         <-> declared_code (page_with_links [alternate "FR"; alternate "en"])
                           code.
Proof.
  pose proof (hreflang_signal_carries_declared_codes
                render (page_with_links [alternate "FR"; alternate "en"]))
    as (_ & _ & Hsignal).
  apply Hsignal. exists "fr". exact french_declared.
Defined.

Lemma resources_short_circuit_or_single_indicator_witness :
  check_for_non_english_resources render (page []) "de" = true
  /\ check_for_non_english_resources render (page [french_link]) "en" = true
  /\ check_for_non_english_resources render (page [french_publications]) "en"
     = true
  /\ check_for_non_english_resources render (page [dotted_publication])
       "unknown" = true.
Proof.
  pose proof (resources_short_circuit_or_single_indicator
                render (page []) "de") as (Hshort & _).
  pose proof (resources_short_circuit_or_single_indicator
                render (page [french_link]) "en") as (_ & Hlink).
  pose proof (resources_short_circuit_or_single_indicator
                render (page [french_publications]) "en") as (_ & Hsection).
  pose proof (resources_short_circuit_or_single_indicator
                render (page [dotted_publication]) "unknown")
    as (_ & Hdotted).
  split; [|split; [|split]].
  - apply Hshort; discriminate.
  - apply Hlink; [now left|].
    exists "/fr/". split; [vm_compute; auto 10|].
    left. exists french_link, "/fr/rapport".
    split; [|left; vm_compute; reflexivity].
    split; [vm_compute; auto|]. now eexists _, _, _.
  - apply Hsection; [now left|].
    exists "français". split; [vm_compute; auto 20|].
    right. exists french_publications. split; [|vm_compute; reflexivity].
    split; [vm_compute; auto|].
    eexists _, _, _, _, _. split; [reflexivity|]. split; [now right|].
    split; [reflexivity|].
    exists "publication". split; [vm_compute; auto|].
    left. exists "Publications". split; [vm_compute; auto|].
    apply ignorecase_search_spec. vm_compute. reflexivity.
  - apply Hdotted; [now right|].
    exists "français". split; [vm_compute; auto 20|].
    right. exists dotted_publication. split; [|vm_compute; reflexivity].
    split; [vm_compute; auto|].
    eexists _, _, _, _, _. split; [reflexivity|]. split; [now left|].
    split; [reflexivity|].
    exists "publication". split; [vm_compute; auto|].
    left. exists "PUBLİCATİON". split; [vm_compute; auto|].
    apply ignorecase_search_spec. vm_compute. reflexivity.
Defined.

Lemma declared_lang_returned_unvalidated_witness :
  detect_primary_language no_guess (html_with_lang "") = "".
Proof.
  pose proof (declared_lang_returned_unvalidated
                no_guess (html_with_lang "")
                (elem "html" [("lang", "")] [elem "body" [] []]) "") as H.
  destruct H as (_ & H).
  - vm_compute. reflexivity.
  - vm_compute. reflexivity.
  - now apply H.
Defined.

(** * Further properties of the program *)

(** ** The signals of [detect_language_options] *)

Section Signals.

Variable str_ : node -> string.

Lemma len_take (n : nat) (s : string) : Py.len (Py.take n s) <= n.
Proof.
  revert n. induction s as [|c t IH]; intros n; simpl; [lia|].
  destruct (Py.is_continuation c) eqn:E; simpl; rewrite ?E.
  - apply IH.
  - destruct n as [|n]; simpl; [lia|]. rewrite E. specialize (IH n). lia.
Qed.

Lemma in_select_options (select : node) (o : language_option) :
  In o (select_options str_ select) ->
  2 <= length (Soup.find_all ["option"] select) <= 15
  /\ has_lang_indicator select = false
  /\ (2 <= lang_code_matches (map Py.lower (raw_option_values select))
      \/ 2 <= lang_name_matches (option_texts select))
  /\ o = language_select
           (lang_code_matches (map Py.lower (raw_option_values select)))
           (lang_name_matches (option_texts select))
           (Py.take 200 (str_ select)).
Proof.
  unfold select_options, raw_option_values, option_texts.
  rewrite map_map.
  destruct (2 <=? _)%nat eqn:Hlo; [|intros []].
  destruct (_ <=? 15)%nat eqn:Hhi; [|intros []].
  destruct (has_lang_indicator select); [intros []|].
  cbn [andb negb].
  destruct (_ || _) eqn:Hm; [|intros []].
  intros [<-|[]].
  apply Nat.leb_le in Hlo, Hhi.
  apply orb_true_iff in Hm as [Hm|Hm]; apply Nat.leb_le in Hm; auto 10.
Qed.

Lemma approach1_rank (soup : node) (o : language_option) :
  In o (approach1 str_ soup) -> approach_rank o = 1.
Proof.
  intros (select & _ & Ho)%in_flat_map.
  apply in_select_options in Ho as (_ & _ & _ & ->). reflexivity.
Qed.

Lemma href_matches_codes (href g : string) :
  In g (href_matches href) -> In g language_codes.
Proof.
  unfold href_matches. intros [H|H]%in_app_or.
  - destruct (Re.search_path href) as [p|]; [|contradiction].
    case_bool_decide as Hp; [|contradiction].
    destruct H as [<-|[]]. now apply list_elem_of_In.
  - destruct (Re.search_param href) as [p|]; [|contradiction].
    case_bool_decide as Hp; [|contradiction].
    destruct (_ && _); [contradiction|].
    destruct H as [<-|[]]. now apply list_elem_of_In.
Qed.

Lemma language_names_codes :
  forallb (fun nc : string * string => bool_decide (nc.2 ∈ language_codes))
          language_names = true.
Proof. vm_compute. reflexivity. Qed.

Lemma text_match_codes (text g : string) :
  In g (text_match text) -> In g language_codes.
Proof.
  unfold text_match.
  destruct (List.find _ language_names) as [nc|] eqn:E; [|intros []].
  intros [<-|[]]. apply List.find_some in E as [Hin _].
  pose proof language_names_codes as H.
  rewrite forallb_forall in H. specialize (H nc Hin).
  apply bool_decide_eq_true in H. now apply list_elem_of_In.
Qed.

(** What a container contributes, and when *)
Lemma in_nav_options (nav : node) (o : language_option) :
  In o (nav_options str_ nav) ->
  exists paths names : list string,
    o = language_menu (elements (list_to_set paths : gset string))
                      (elements (list_to_set names : gset string))
                      (Py.take 200 (str_ nav))
    /\ length (Soup.find_all_tags nav) <= 20
    /\ 2 <= length (Soup.find_all ["a"] nav) <= 10
    /\ (forall p, In p paths -> In p language_codes)
    /\ (forall n, In n names -> In n language_codes)
    /\ (if explicit_lang_element nav then 1 else 2)
       <= size (list_to_set paths ∪ list_to_set names : gset string).
Proof.
  unfold nav_options.
  destruct (20 <? _)%nat eqn:Hbig; [intros []|].
  destruct (2 <=? _)%nat eqn:Hlo; [|intros []].
  destruct (_ <=? 10)%nat eqn:Hhi; [|intros []].
  cbn [andb].
  destruct (_ <? 2)%nat eqn:Hf; [intros []|].
  destruct (_ <=? size _)%nat eqn:Hreq; [|intros []].
  intros [<-|[]].
  apply Nat.ltb_ge in Hbig. apply Nat.leb_le in Hlo, Hhi, Hreq.
  eexists _, _. split; [reflexivity|].
  split; [exact Hbig|]. split; [lia|]. split; [|split].
  - intros p (href & _ & Hp)%in_flat_map. now apply href_matches_codes in Hp.
  - intros n (text & _ & Hn)%in_flat_map. now apply text_match_codes in Hn.
  - exact Hreq.
Qed.

Lemma approach2_rank (soup : node) (o : language_option) :
  In o (approach2 str_ soup) -> approach_rank o = 2.
Proof.
  intros (nav & _ & Ho)%in_flat_map.
  apply in_nav_options in Ho as (paths & names & -> & _). reflexivity.
Qed.

Lemma in_id_pattern_options (soup : node) (pattern : string)
  (o : language_option) :
  In o (id_pattern_options str_ soup pattern)
  <-> exists element,
        Soup.find_id pattern soup = Some element
        /\ (1 <= length (Soup.find_all ["a"] element)
            \/ 1 <= length (Soup.find_all ["select"] element)
            \/ 1 <= length (Soup.find_all ["button"] element))
        /\ o = id_exact_match pattern (Py.take 200 (str_ element)).
Proof.
  unfold id_pattern_options.
  destruct (Soup.find_id pattern soup) as [element|].
  - destruct (_ || _) eqn:E.
    + split.
      * intros [<-|[]]. exists element. split; [reflexivity|].
        split; [|reflexivity].
        apply orb_true_iff in E as [E|E];
          [apply orb_true_iff in E as [E|E]|];
          apply Nat.leb_le in E; auto.
      * intros (el & [= <-] & _ & ->). now left.
    + split; [intros []|].
      intros (el & [= <-] & H & _).
      apply orb_false_iff in E as [E E3].
      apply orb_false_iff in E as [E1 E2].
      apply Nat.leb_gt in E1, E2, E3. lia.
  - split; [intros []|]. intros (el & [=] & _).
Qed.

Lemma approach3_rank (soup : node) (o : language_option) :
  In o (approach3 str_ soup) -> approach_rank o = 3.
Proof.
  intros (pattern & _ & Ho)%in_flat_map.
  apply in_id_pattern_options in Ho as (el & _ & _ & ->). reflexivity.
Qed.

Lemma approach4_rank (soup : node) (o : language_option) :
  In o (approach4 soup) -> approach_rank o = 4.
Proof.
  unfold approach4. case_bool_decide; [|intros []].
  intros [<-|[]]. reflexivity.
Qed.

Lemma gt_element_rank (soup : node) (o : language_option) :
  In o (gt_element_options str_ soup) -> approach_rank o = 5.
Proof.
  unfold gt_element_options.
  destruct (Soup.find_id _ soup); [|intros []].
  intros [<-|[]]. reflexivity.
Qed.

Lemma gt_script_rank (soup : node) (o : language_option) :
  In o (gt_script_options soup) -> approach_rank o = 6.
Proof.
  unfold gt_script_options.
  destruct (existsb _ _); [|intros []].
  intros [<-|[]]. reflexivity.
Qed.

(** A signal of the result, by the approach that appended it *)
Lemma in_detector (soup : node) (o : language_option) :
  In o (detect_language_options str_ soup)
  <-> (approach_rank o = 1 /\ In o (approach1 str_ soup))
      \/ (approach_rank o = 2 /\ In o (approach2 str_ soup))
      \/ (approach_rank o = 3 /\ In o (approach3 str_ soup))
      \/ (approach_rank o = 4 /\ In o (approach4 soup))
      \/ (approach_rank o = 5 /\ In o (gt_element_options str_ soup))
      \/ (approach_rank o = 6 /\ In o (gt_script_options soup)).
Proof.
  unfold detect_language_options. rewrite !in_app_iff. split.
  - intros [H|[H|[H|[H|[H|H]]]]].
    + left. split; [now apply (approach1_rank soup)|exact H].
    + right. left. split; [now apply (approach2_rank soup)|exact H].
    + right. right. left. split; [now apply (approach3_rank soup)|exact H].
    + right. right. right. left.
      split; [now apply (approach4_rank soup)|exact H].
    + right. right. right. right. left.
      split; [now apply (gt_element_rank soup)|exact H].
    + right. right. right. right. right.
      split; [now apply (gt_script_rank soup)|exact H].
  - intros [[_ H]|[[_ H]|[[_ H]|[[_ H]|[[_ H]|[_ H]]]]]]; auto 10.
Qed.

(** X1: the result holds a language_select signal exactly for the select
    elements of the document that have between 2 and 15 options, no
    language token in id, name and class, and at least 2 matching codes or
    2 matching names; the signal carries the two counts, which are at most
    11 and 21, and the first 200 characters of the markup. *)
Theorem dropdown_signal_characterised
  (soup : node) (codes names : nat) (content : string) :
  (In (language_select codes names content)
      (detect_language_options str_ soup)
   <-> exists select,
         In select (Soup.find_all ["select"] soup)
         /\ 2 <= length (Soup.find_all ["option"] select) <= 15
         /\ has_lang_indicator select = false
         /\ codes = lang_code_matches (map Py.lower (raw_option_values select))
         /\ names = lang_name_matches (option_texts select)
         /\ (2 <= codes \/ 2 <= names)
         /\ content = Py.take 200 (str_ select))
  /\ (In (language_select codes names content)
         (detect_language_options str_ soup) ->
      codes <= 11 /\ names <= 21).
Proof.
  assert (Hiff : In (language_select codes names content)
                    (detect_language_options str_ soup)
                 <-> exists select,
                       In select (Soup.find_all ["select"] soup)
                       /\ 2 <= length (Soup.find_all ["option"] select) <= 15
                       /\ has_lang_indicator select = false
                       /\ codes = lang_code_matches
                                    (map Py.lower (raw_option_values select))
                       /\ names = lang_name_matches (option_texts select)
                       /\ (2 <= codes \/ 2 <= names)
                       /\ content = Py.take 200 (str_ select)).
  { split.
    - intros H. apply in_detector in H.
      destruct H as [[_ H]|[[E _]|[[E _]|[[E _]|[[E _]|[E _]]]]]];
        try discriminate E.
      apply in_flat_map in H as (select & Hs & Ho).
      apply in_select_options in Ho as (Hn & Hi & Hm & [= -> -> ->]).
      exists select. auto 10.
    - intros (select & Hs & Hn & Hi & -> & -> & Hm & ->).
      apply (select_options_in_detector str_ soup select); [exact Hs|].
      rewrite (select_options_threshold str_ select Hi Hn).
      destruct Hm as [Hm|Hm]; apply Nat.leb_le in Hm; rewrite Hm;
        rewrite ?orb_true_r; now left. }
  split; [exact Hiff|].
  intros (select & _ & _ & _ & -> & -> & _)%Hiff.
  unfold lang_code_matches, lang_name_matches. split.
  - etransitivity; [apply List.filter_length_le|]. reflexivity.
  - etransitivity; [apply List.filter_length_le|]. reflexivity.
Qed.

(** X2: a language_menu signal of the result lists supported language
    codes only, each once in each of its two lists and at least one in
    all, and it comes from a nav, ul or div of the document with at most
    20 tags below it and between 2 and 10 links. *)
Theorem language_menu_invariant
  (soup : node) (paths names : list string) (content : string) :
  In (language_menu paths names content) (detect_language_options str_ soup) ->
  NoDup paths /\ NoDup names
  /\ (forall p, In p paths -> In p language_codes)
  /\ (forall n, In n names -> In n language_codes)
  /\ 1 <= length paths + length names
  /\ exists nav,
       In nav (Soup.find_all ["nav"; "ul"; "div"] soup)
       /\ length (Soup.find_all_tags nav) <= 20
       /\ 2 <= length (Soup.find_all ["a"] nav) <= 10
       /\ content = Py.take 200 (str_ nav).
Proof.
  intros H. apply in_detector in H.
  destruct H as [[E _]|[[_ H]|[[E _]|[[E _]|[[E _]|[E _]]]]]];
    try discriminate E.
  apply in_flat_map in H as (nav & Hnav & Ho).
  apply in_nav_options in Ho
    as (ps & ns & [= -> -> ->] & Hbig & Hlinks & Hps & Hns & Hreq).
  split; [apply NoDup_elements|]. split; [apply NoDup_elements|].
  split; [|split; [|split]].
  - intros p Hp. apply Hps.
    apply list_elem_of_In, elem_of_elements, elem_of_list_to_set in Hp.
    now apply list_elem_of_In.
  - intros n Hn. apply Hns.
    apply list_elem_of_In, elem_of_elements, elem_of_list_to_set in Hn.
    now apply list_elem_of_In.
  - change (1 <= size (list_to_set ps : gset string)
                 + size (list_to_set ns : gset string)).
    rewrite size_union_alt in Hreq.
    assert (size ((list_to_set ns : gset string) ∖ list_to_set ps)
            <= size (list_to_set ns : gset string)).
    { apply subseteq_size. intros x Hx.
      now apply elem_of_difference in Hx as [Hx _]. }
    destruct (explicit_lang_element nav); lia.
  - exists nav. auto.
Qed.

(** X3: the result holds an id_exact_match signal for a pattern exactly
    when the pattern is one of the sixteen identifiers and the first
    element with that id has a link, a select or a button below it. *)
Theorem id_signal_characterised
  (soup : node) (pattern content : string) :
  In (id_exact_match pattern content) (detect_language_options str_ soup)
  <-> In pattern lang_id_patterns
      /\ exists element,
           Soup.find_id pattern soup = Some element
           /\ (1 <= length (Soup.find_all ["a"] element)
               \/ 1 <= length (Soup.find_all ["select"] element)
               \/ 1 <= length (Soup.find_all ["button"] element))
           /\ content = Py.take 200 (str_ element).
Proof.
  rewrite in_detector. split.
  - intros [[E _]|[[E _]|[[_ H]|[[E _]|[[E _]|[E _]]]]]];
      try discriminate E.
    apply in_flat_map in H as (p & Hp & Ho).
    apply in_id_pattern_options in Ho as (el & Hf & Hd & [= -> ->]).
    split; [exact Hp|]. now exists el.
  - intros (Hp & el & Hf & Hd & ->). right. right. left.
    split; [reflexivity|]. apply in_flat_map. exists pattern.
    split; [exact Hp|]. apply in_id_pattern_options. now exists el.
Qed.

Lemma translate_script_spec (script : node) :
  translate_script script = true
  <-> exists text,
        Soup.string_ script = Some text
        /\ Py.contains "new google.translate.TranslateElement" text = true.
Proof.
  unfold translate_script. destruct (Soup.string_ script) as [text|]; simpl.
  - split.
    + intros [_ H]%andb_true_iff. now exists text.
    + intros (t & [= <-] & H). rewrite H.
      destruct text; [discriminate H|reflexivity].
  - split; [discriminate|]. intros (t & [=] & _).
Qed.

Lemma filter_by_rank (k : nat) (p : language_option -> bool)
  (l : list language_option) :
  (forall o, p o = true -> approach_rank o = k) ->
  (forall o, In o l -> approach_rank o <> k) ->
  List.filter p l = [].
Proof.
  intros Hp Hl. induction l as [|o l IH]; [reflexivity|]. simpl.
  destruct (p o) eqn:E.
  - exfalso. apply (Hl o); [now left|]. now apply Hp.
  - apply IH. intros o' Ho'. apply Hl. now right.
Qed.

(** X4: the result holds the google_translate_script signal exactly when
    the single string of some script element contains the call that
    starts the widget, and it holds it once however many scripts do. *)
Theorem translate_script_signal_once (soup : node) (content : string) :
  (In (google_translate_script content) (detect_language_options str_ soup)
   <-> content = "Google Translate implementation detected"
       /\ exists script text,
            In script (Soup.find_all ["script"] soup)
            /\ Soup.string_ script = Some text
            /\ Py.contains "new google.translate.TranslateElement" text
               = true)
  /\ length (List.filter is_google_translate_script
                         (detect_language_options str_ soup)) <= 1.
Proof.
  split.
  - rewrite in_detector. unfold gt_script_options. split.
    + intros [[E _]|[[E _]|[[E _]|[[E _]|[[E _]|[_ H]]]]]];
        try discriminate E.
      destruct (existsb _ _) eqn:Ex; [|destruct H].
      destruct H as [[= <-]|[]]. split; [reflexivity|].
      apply existsb_exists in Ex as (script & Hs & Ht).
      apply translate_script_spec in Ht as (text & Ht & Hc).
      now exists script, text.
    + intros (-> & script & text & Hs & Ht & Hc).
      do 5 right. split; [reflexivity|].
      assert (existsb translate_script (Soup.find_all ["script"] soup)
              = true) as ->.
      { apply existsb_exists. exists script. split; [exact Hs|].
        apply translate_script_spec. now exists text. }
      now left.
  - assert (Hr : forall o, is_google_translate_script o = true ->
                           approach_rank o = 6) by (now intros []).
    unfold detect_language_options. rewrite !List.filter_app.
    rewrite (filter_by_rank 6 _ (approach1 str_ soup) Hr).
    2:{ intros o Ho. now rewrite (approach1_rank soup o Ho). }
    rewrite (filter_by_rank 6 _ (approach2 str_ soup) Hr).
    2:{ intros o Ho. now rewrite (approach2_rank soup o Ho). }
    rewrite (filter_by_rank 6 _ (approach3 str_ soup) Hr).
    2:{ intros o Ho. now rewrite (approach3_rank soup o Ho). }
    rewrite (filter_by_rank 6 _ (approach4 soup) Hr).
    2:{ intros o Ho. now rewrite (approach4_rank soup o Ho). }
    rewrite (filter_by_rank 6 _ (gt_element_options str_ soup) Hr).
    2:{ intros o Ho. now rewrite (gt_element_rank soup o Ho). }
    simpl. etransitivity; [apply List.filter_length_le|].
    unfold gt_script_options. destruct (existsb _ _); simpl; lia.
Qed.

Lemma sorted_same_rank (k : nat) (l : list language_option) :
  (forall o, In o l -> approach_rank o = k) ->
  StronglySorted (fun a b => approach_rank a <= approach_rank b) l.
Proof.
  induction l as [|o l IH]; intros H; constructor.
  - apply IH. intros o' Ho'. apply H. now right.
  - apply Forall_forall. intros o' Ho'%list_elem_of_In.
    rewrite (H o) by now left. rewrite (H o') by now right. lia.
Qed.

(** X5: the signals of the result come in the order of the approaches:
    the selects, the link groups, the identifiers, the hreflang signal,
    the Google Translate element and the Google Translate script. *)
Theorem signals_in_approach_order (soup : node) :
  StronglySorted (fun a b => approach_rank a <= approach_rank b)
                 (detect_language_options str_ soup).
Proof.
  unfold detect_language_options.
  pose proof (approach1_rank soup) as H1.
  pose proof (approach2_rank soup) as H2.
  pose proof (approach3_rank soup) as H3.
  pose proof (approach4_rank soup) as H4.
  pose proof (gt_element_rank soup) as H5.
  pose proof (gt_script_rank soup) as H6.
  assert (Hle : forall k1 k2 (l1 l2 : list language_option),
             k1 <= k2 ->
             (forall o, In o l1 -> approach_rank o = k1) ->
             (forall o, In o l2 -> k2 <= approach_rank o) ->
             forall a b, a ∈ l1 -> b ∈ l2 ->
                         approach_rank a <= approach_rank b).
  { intros k1 k2 l1 l2 Hk Hl1 Hl2 a b Ha%list_elem_of_In Hb%list_elem_of_In.
    rewrite (Hl1 a Ha). specialize (Hl2 b Hb). lia. }
  apply StronglySorted_app_2;
    [apply (Hle 1 2); [lia|exact H1|] | now apply (sorted_same_rank 1) |].
  { intros o Ho. rewrite !in_app_iff in Ho.
    destruct Ho as [Ho|[Ho|[Ho|[Ho|Ho]]]];
      [rewrite (H2 o Ho)|rewrite (H3 o Ho)|rewrite (H4 o Ho)
      |rewrite (H5 o Ho)|rewrite (H6 o Ho)]; lia. }
  apply StronglySorted_app_2;
    [apply (Hle 2 3); [lia|exact H2|] | now apply (sorted_same_rank 2) |].
  { intros o Ho. rewrite !in_app_iff in Ho.
    destruct Ho as [Ho|[Ho|[Ho|Ho]]];
      [rewrite (H3 o Ho)|rewrite (H4 o Ho)
      |rewrite (H5 o Ho)|rewrite (H6 o Ho)]; lia. }
  apply StronglySorted_app_2;
    [apply (Hle 3 4); [lia|exact H3|] | now apply (sorted_same_rank 3) |].
  { intros o Ho. rewrite !in_app_iff in Ho.
    destruct Ho as [Ho|[Ho|Ho]];
      [rewrite (H4 o Ho)|rewrite (H5 o Ho)|rewrite (H6 o Ho)]; lia. }
  apply StronglySorted_app_2;
    [apply (Hle 4 5); [lia|exact H4|] | now apply (sorted_same_rank 4) |].
  { intros o Ho. rewrite !in_app_iff in Ho.
    destruct Ho as [Ho|Ho]; [rewrite (H5 o Ho)|rewrite (H6 o Ho)]; lia. }
  apply StronglySorted_app_2;
    [apply (Hle 5 6); [lia|exact H5|] | now apply (sorted_same_rank 5)
    | now apply (sorted_same_rank 6)].
  intros o Ho. rewrite (H6 o Ho). lia.
Qed.

(** X6: the content of every signal has at most 200 characters. *)
Theorem signal_content_bounded
  (soup : node) (o : language_option) (content : string) :
  In o (detect_language_options str_ soup) ->
  content_of o = Some content ->
  Py.len content <= 200.
Proof.
  intros H Hc. apply in_detector in H.
  destruct H as [[_ H]|[[_ H]|[[_ H]|[[_ H]|[[_ H]|[_ H]]]]]].
  - apply in_flat_map in H as (select & _ & Ho).
    apply in_select_options in Ho as (_ & _ & _ & ->).
    injection Hc as <-. apply len_take.
  - apply in_flat_map in H as (nav & _ & Ho).
    apply in_nav_options in Ho as (ps & ns & -> & _).
    injection Hc as <-. apply len_take.
  - apply in_flat_map in H as (p & _ & Ho).
    apply in_id_pattern_options in Ho as (el & _ & _ & ->).
    injection Hc as <-. apply len_take.
  - unfold approach4 in H. case_bool_decide; [|destruct H].
    destruct H as [<-|[]]. discriminate Hc.
  - unfold gt_element_options in H.
    destruct (Soup.find_id _ soup); [|destruct H].
    destruct H as [<-|[]]. injection Hc as <-. apply len_take.
  - unfold gt_script_options in H.
    destruct (existsb _ _); [|destruct H].
    destruct H as [<-|[]]. injection Hc as <-. vm_compute. lia.
Qed.

End Signals.

(** ** The language segment of a link *)

Section PathPattern.

Lemma path_at_spec (s g : string) :
  Re.path_at s = Some g
  <-> exists rest,
        two_letters g /\ s = "/" ++ g ++ rest
        /\ (Re.region_then_end rest = true \/ Re.path_end rest = true).
Proof.
  split.
  - destruct s as [|sl [|a [|b r]]]; try discriminate. unfold Re.path_at.
    destruct (Ascii.eqb_spec sl "/") as [->|]; [|discriminate].
    destruct (Re.is_az a) eqn:Ha; [|discriminate].
    destruct (Re.is_az b) eqn:Hb; [|discriminate].
    cbn [andb].
    destruct (_ || _) eqn:E; [|discriminate].
    intros [= <-]. exists r. split; [now exists a, b|].
    split; [reflexivity|]. now apply orb_true_iff.
  - intros (rest & (a & b & -> & Ha & Hb) & -> & E).
    apply orb_true_iff in E.
    change (Re.path_at (String "/" (String a (String b rest)))
            = Some (String a (String b ""))).
    unfold Re.path_at. now rewrite Ha, Hb, E.
Qed.

Lemma search_path_cons (c : ascii) (t : string) :
  Re.search_path (String c t)
  = match Re.path_at (String c t) with
    | Some g => Some g
    | None => Re.search_path t
    end.
Proof. reflexivity. Qed.

Lemma search_path_sound (s g : string) :
  Re.search_path s = Some g ->
  two_letters g
  /\ exists before rest,
       s = before ++ "/" ++ g ++ rest
       /\ (Re.region_then_end rest = true \/ Re.path_end rest = true).
Proof.
  revert g. induction s as [|c t IH]; intros g; [discriminate|].
  rewrite search_path_cons.
  destruct (Re.path_at (String c t)) as [g'|] eqn:E.
  - intros [= ->]. apply path_at_spec in E as (rest & Hg & Hs & He).
    split; [exact Hg|]. now exists "", rest.
  - intros (Hg & before & rest & -> & He)%IH.
    split; [exact Hg|]. now exists (String c before), rest.
Qed.

(** X7: the search for a language segment in a link answers with two
    letters of a to z that stand after a slash and before a slash, a
    question mark or the end of the link, a region of two letters after a
    hyphen being allowed in between; and it answers whenever the link
    holds such a segment. *)
Theorem language_segment_found (s : string) :
  (forall g, Re.search_path s = Some g ->
     two_letters g
     /\ exists before rest,
          s = before ++ "/" ++ g ++ rest
          /\ (Re.region_then_end rest = true \/ Re.path_end rest = true))
  /\ ((exists g before rest,
         two_letters g /\ s = before ++ "/" ++ g ++ rest
         /\ (Re.region_then_end rest = true \/ Re.path_end rest = true))
      -> exists g, Re.search_path s = Some g).
Proof.
  split.
  - intros g H. now apply search_path_sound.
  - intros (g & before & rest & Hg & -> & He).
    induction before as [|c t IH].
    + exists g.
      assert (Re.path_at (String "/" (g ++ rest)) = Some g) as E.
      { apply path_at_spec. now exists rest. }
      change ("" ++ "/" ++ g ++ rest) with (String "/" (g ++ rest)).
      rewrite search_path_cons. now rewrite E.
    + change (String c t ++ "/" ++ g ++ rest)
        with (String c (t ++ "/" ++ g ++ rest)).
      rewrite search_path_cons.
      destruct (Re.path_at _) as [g'|]; [now exists g'|exact IH].
Qed.

End PathPattern.

(** ** The fallbacks of [detect_primary_language] *)

Section PrimaryFallbacks.

Variable langdetect_detect : string -> outcome string.

(** X8: without a lang attribute on the first html element, the content
    of the first content-language meta tag decides: the detector returns
    it in lower case, cut at its first hyphen, and the text of the page
    and the guesser play no part. *)
Theorem meta_content_language_decides (soup : node) (content : string) :
  html_lang soup = None ->
  meta_content soup = Some content ->
  detect_primary_language langdetect_detect soup
  = primary_subtag (Py.lower content).
Proof.
  intros Hh Hm. unfold detect_primary_language. rewrite Hh, Hm.
  apply split_hd.
Qed.

Lemma guess_if_long_agree (g1 g2 : string -> outcome string) (text : string) :
  (forall t, 100 < Py.len t -> g1 t = g2 t) ->
  guess_if_long g1 text = guess_if_long g2 text.
Proof.
  intros H. unfold guess_if_long.
  destruct (Nat.ltb_spec 100 (Py.len text)); [|reflexivity].
  now rewrite H.
Qed.

Lemma from_text_agree (g1 g2 : string -> outcome string) (soup : node) :
  (forall t, 100 < Py.len t -> g1 t = g2 t) ->
  from_text g1 soup = from_text g2 soup.
Proof.
  intros H. unfold from_text, from_paragraphs, from_body.
  assert (Hc : forall tags, from_containers g1 soup tags
                            = from_containers g2 soup tags).
  { induction tags as [|tag rest IH]; [reflexivity|]. simpl.
    destruct (Soup.select tag soup); [exact IH|].
    rewrite (guess_if_long_agree g1 g2 _ H). now rewrite IH. }
  rewrite Hc.
  assert (Hb : match Soup.find "body" soup with
               | Some body => guess_if_long g1 (Py.strip (Soup.get_text body))
               | None => None
               end
               = match Soup.find "body" soup with
                 | Some body =>
                     guess_if_long g2 (Py.strip (Soup.get_text body))
                 | None => None
                 end).
  { destruct (Soup.find "body" soup) as [body|]; [|reflexivity].
    apply (guess_if_long_agree g1 g2 _ H). }
  rewrite Hb.
  destruct (Soup.find_all ["p"] soup); [reflexivity|].
  now rewrite (guess_if_long_agree g1 g2 _ H).
Qed.

(** X9: the guesser is asked about texts of more than 100 characters
    only: two guessers that agree on those texts give the same primary
    language for every document. *)
Theorem guesser_sees_long_texts_only
  (g1 g2 : string -> outcome string) (soup : node) :
  (forall t, 100 < Py.len t -> g1 t = g2 t) ->
  detect_primary_language g1 soup = detect_primary_language g2 soup.
Proof.
  intros H. unfold detect_primary_language.
  now rewrite (from_text_agree g1 g2 soup H).
Qed.

(** X10: when the page declares no language and the first five
    paragraphs hold more than 100 characters, the guess on them is final:
    the detector returns the guessed language, and "unknown" if the
    guesser raises, without trying the content containers or the body. *)
Theorem paragraphs_guess_is_final
  (soup : node) (p : node) (ps : list node) :
  html_lang soup = None ->
  meta_content soup = None ->
  Soup.find_all ["p"] soup = p :: ps ->
  100 < Py.len (Py.join " " (map (fun p => Py.strip (Soup.get_text p))
                                 (firstn 5 (p :: ps)))) ->
  detect_primary_language langdetect_detect soup
  = match langdetect_detect
            (Py.join " " (map (fun p => Py.strip (Soup.get_text p))
                              (firstn 5 (p :: ps)))) with
    | Return lang => lang
    | Raise _ => "unknown"
    end.
Proof.
  intros Hh Hm Hp Hlen.
  unfold detect_primary_language, from_text, from_paragraphs, guess_if_long.
  rewrite Hh, Hm, Hp.
  apply Nat.ltb_lt in Hlen. rewrite Hlen.
  now destruct (langdetect_detect _).
Qed.

End PrimaryFallbacks.

(** ** The shape of a result *)

Section ResultShape.

Variable str_ : node -> string.
Variable langdetect_detect : string -> outcome string.
Variable requests_get : string -> outcome Response.
Variable BeautifulSoup : string -> outcome node.

Local Abbreviation analyze :=
  (analyze_website str_ langdetect_detect requests_get BeautifulSoup).

(** The three kinds of result, with the status code that leads to the
    second *)
Lemma analyze_cases (org : Org) :
  (exists e, analyze org = exception_error org e)
  \/ (exists code, code <> 200%Z /\ analyze org = status_error org code)
  \/ (exists soup, analyze org = classify str_ langdetect_detect org soup).
Proof.
  destruct (requests_get (org_url org)) as [response|e] eqn:H.
  - destruct (Z.eq_dec (status_code response) 200%Z) as [Hc|Hc].
    + destruct (BeautifulSoup (text response)) as [soup|e] eqn:Hp.
      * right. right. exists soup.
        now apply (analyze_parsed _ _ _ _ _ response).
      * left. exists e. now apply (analyze_parse_raises _ _ _ _ _ response).
    + right. left. exists (status_code response). split; [exact Hc|].
      now apply analyze_status_not_200.
  - left. exists e. now apply analyze_fetch_raises.
Qed.

(** X11: every result carries the name and the url of its organization
    and has one of three shapes: a success with a primary language and
    neither status code nor error text; an error with a status code other
    than 200 and no error text; an error with an error text and no status
    code.  The two kinds of error report no language option and no
    non-English resource. *)
Theorem result_has_one_of_three_shapes (org : Org) :
  r_name (analyze org) = org_name org
  /\ r_url (analyze org) = org_url org
  /\ ((r_status (analyze org) = success
       /\ r_status_code (analyze org) = None
       /\ r_error (analyze org) = None
       /\ exists lang, r_primary_language (analyze org) = Some lang)
      \/ (r_status (analyze org) = error
          /\ (exists code, r_status_code (analyze org) = Some code
                           /\ code <> 200%Z)
          /\ r_error (analyze org) = None
          /\ r_has_language_options (analyze org) = false
          /\ r_language_options (analyze org) = []
          /\ r_has_non_english_resources (analyze org) = false)
      \/ (r_status (analyze org) = error
          /\ r_status_code (analyze org) = None
          /\ (exists message, r_error (analyze org) = Some message)
          /\ r_has_language_options (analyze org) = false
          /\ r_language_options (analyze org) = []
          /\ r_has_non_english_resources (analyze org) = false)).
Proof.
  destruct (analyze_cases org) as [[e ->]|[(code & Hc & ->)|[soup ->]]];
    (split; [reflexivity|]); (split; [reflexivity|]).
  - right. right. simpl. repeat split. now exists (str_exc e).
  - right. left. simpl. repeat split. now exists code.
  - left. simpl. repeat split. eauto.
Qed.

(** X12: a successful result whose primary language is anything but "en"
    and "unknown" reports non-English resources, whatever the page
    links to. *)
Theorem foreign_primary_language_means_resources
  (org : Org) (lang : string) :
  r_status (analyze org) = success ->
  r_primary_language (analyze org) = Some lang ->
  lang <> "en" -> lang <> "unknown" ->
  r_has_non_english_resources (analyze org) = true.
Proof.
  intros Hs Hl Hen Hun.
  destruct (analyze_cases org) as [[e E]|[(code & Hc & E)|[soup E]]];
    rewrite E in *; try discriminate Hs.
  simpl in *. injection Hl as Hl. rewrite Hl.
  unfold check_for_non_english_resources.
  apply String.eqb_neq in Hen, Hun. now rewrite Hen, Hun.
Qed.

End ResultShape.

(** ** The statistics *)

Section StatisticsProperties.

Variable float : Type.
Variable percentage : nat -> nat -> float.

Lemma filter_length_impl {A : Type} (p q : A -> bool) (l : list A) :
  (forall x, In x l -> p x = true -> q x = true) ->
  length (List.filter p l) <= length (List.filter q l).
Proof.
  induction l as [|x l IH]; intros H; [reflexivity|]. simpl.
  assert (IH' : length (List.filter p l) <= length (List.filter q l)).
  { apply IH. intros y Hy. apply H. now right. }
  destruct (p x) eqn:Hp.
  - rewrite (H x) by (auto; now left). simpl. lia.
  - destruct (q x); simpl; lia.
Qed.

Lemma filter_length_zero {A : Type} (p : A -> bool) (l : list A) :
  length (List.filter p l) = 0 <-> forall x, In x l -> p x = false.
Proof.
  induction l as [|x l IH]; simpl.
  - split; [intros _ x []|reflexivity].
  - destruct (p x) eqn:Hp; simpl.
    + split; [discriminate|]. intros H. specialize (H x (or_introl eq_refl)).
      congruence.
    + rewrite IH. split.
      * intros H y [<-|Hy]; auto.
      * intros H y Hy. apply H. now right.
Qed.

Lemma print_and_return_spec (rows : nat) (df : list SiteResult) :
  (total_success df = 0 ->
   print_and_return float percentage rows df
   = Raise (Exc "division by zero"))
  /\ (0 < total_success df ->
      print_and_return float percentage rows df
      = Return {| total_orgs := rows;
                  successful_analysis := total_success df;
                  english_percent :=
                    Float float (percentage (english_sites df)
                                            (total_success df));
                  multilingual_percent :=
                    Float float (percentage (sites_with_language_options df)
                                            (total_success df));
                  non_english_resources_percent :=
                    Float float
                      (percentage (sites_with_non_english_resources df)
                                  (total_success df)) |}).
Proof.
  unfold print_and_return, percent, guarded_percent. split.
  - intros ->. reflexivity.
  - intros H.
    destruct (Nat.eqb_spec (total_success df) 0) as [E|_]; [lia|].
    apply Nat.ltb_lt in H. rewrite H. reflexivity.
Qed.

(** What the prints and the dictionary do, by the number of successes *)
Lemma print_and_return_cases (rows : nat) (df : list SiteResult) :
  ((forall r, In r df -> r_status r = error)
   <-> print_and_return float percentage rows df
       = Raise (Exc "division by zero"))
  /\ ((exists r, In r df /\ r_status r = success)
      <-> exists stats,
            print_and_return float percentage rows df = Return stats)
  /\ (forall stats,
        print_and_return float percentage rows df = Return stats ->
        total_orgs float stats = rows
        /\ 0 < successful_analysis float stats <= length df
        /\ english_percent float stats
           = Float float (percentage (english_sites df) (total_success df))
        /\ multilingual_percent float stats
           = Float float (percentage (sites_with_language_options df)
                                     (total_success df))
        /\ non_english_resources_percent float stats
           = Float float (percentage (sites_with_non_english_resources df)
                                     (total_success df))).
Proof.
  destruct (print_and_return_spec rows df) as [Hzero Hpos].
  assert (Hall : (forall r, In r df -> r_status r = error)
                 <-> total_success df = 0).
  { unfold total_success. rewrite filter_length_zero.
    split; intros H r Hr; specialize (H r Hr);
      destruct (r_status r); simpl in *; congruence. }
  assert (Hex : (exists r, In r df /\ r_status r = success)
                <-> 0 < total_success df).
  { split.
    - intros (r & Hr & Hs).
      destruct (Nat.eq_dec (total_success df) 0) as [E|]; [|lia].
      rewrite (proj2 Hall E r Hr) in Hs. discriminate.
    - intros H. unfold total_success in H.
      destruct (List.filter _ df) as [|r l] eqn:E; [simpl in H; lia|].
      assert (Hr : In r (List.filter (fun r => is_success (r_status r)) df))
        by (rewrite E; now left).
      apply List.filter_In in Hr as [Hr Hs]. exists r. split; [exact Hr|].
      now destruct (r_status r). }
  split; [|split].
  - rewrite Hall. split; [exact Hzero|].
    intros E. destruct (Nat.eq_dec (total_success df) 0) as [|Hn]; [auto|].
    rewrite Hpos in E by lia. discriminate.
  - rewrite Hex. split.
    + intros H. rewrite (Hpos H). eauto.
    + intros (stats & E).
      destruct (Nat.eq_dec (total_success df) 0) as [Hz|]; [|lia].
      rewrite (Hzero Hz) in E. discriminate.
  - intros stats E.
    destruct (Nat.eq_dec (total_success df) 0) as [Hz|Hn].
    + rewrite (Hzero Hz) in E. discriminate.
    + rewrite Hpos in E by lia. injection E as <-. simpl.
      repeat split; try lia.
      unfold total_success. apply List.filter_length_le.
Qed.

(** X13: [print_stats.py] ends with ZeroDivisionError exactly when the
    file holds no row with status "success", a file without rows
    included: the
    prints divide by the number of such rows before the guarded
    divisions of the dictionary are reached.  When it does not raise, the
    three percentages are the floating point quotients, never the 0 of
    the guards. *)
Theorem print_stats_needs_a_success (df : list SiteResult) :
  ((forall r, In r df -> r_status r = error)
   <-> print_stats float percentage df = Raise (Exc "division by zero"))
  /\ ((exists r, In r df /\ r_status r = success)
      <-> exists stats, print_stats float percentage df = Return stats)
  /\ (forall stats,
        print_stats float percentage df = Return stats ->
        total_orgs float stats = length df
        /\ 0 < successful_analysis float stats <= length df
        /\ english_percent float stats
           = Float float (percentage (english_sites df) (total_success df))
        /\ multilingual_percent float stats
           = Float float (percentage (sites_with_language_options df)
                                     (total_success df))
        /\ non_english_resources_percent float stats
           = Float float (percentage (sites_with_non_english_resources df)
                                     (total_success df))).
Proof.
  unfold print_stats.
  destruct (print_and_return_cases (length df) df) as (Hzero & Hsome & Hret).
  split; [exact Hzero|]. split; [exact Hsome|].
  intros stats E. now apply Hret.
Qed.

Variable str_ : node -> string.
Variable langdetect_detect : string -> outcome string.
Variable requests_get : string -> outcome Response.
Variable BeautifulSoup : string -> outcome node.

Local Abbreviation analyze :=
  (analyze_website str_ langdetect_detect requests_get BeautifulSoup).
Local Abbreviation results :=
  (analyze_ai_safety_organizations
     str_ langdetect_detect requests_get BeautifulSoup).
Local Abbreviation statistics :=
  (analyze_ai_safety_organizations_stats
     float percentage str_ langdetect_detect requests_get BeautifulSoup).

Lemma results_permutation (rows : list Org) (completed : list nat) :
  as_completed rows completed ->
  results rows completed ≡ₚ map analyze rows.
Proof.
  intros Hc. unfold analyze_ai_safety_organizations.
  rewrite (completed_ranks _ _ Hc).
  erewrite (omap_seq_lookup analyze rows 0); [reflexivity|].
  intros i _. unfold future_result. now rewrite future_to_org_lookup.
Qed.

Lemma in_results (rows : list Org) (completed : list nat) (r : SiteResult) :
  as_completed rows completed ->
  In r (results rows completed) <-> exists org, In org rows /\ r = analyze org.
Proof.
  intros Hc. rewrite <- list_elem_of_In, (results_permutation _ _ Hc).
  rewrite list_elem_of_In, in_map_iff. split; intros (org & H1 & H2); eauto.
Qed.

(** Only a successful result reports language options or non-English
    resources. *)
Lemma findings_need_success (org : Org) :
  (r_has_language_options (analyze org) = true ->
   r_status (analyze org) = success)
  /\ (r_has_non_english_resources (analyze org) = true ->
      r_status (analyze org) = success).
Proof.
  destruct (analyze_paths str_ langdetect_detect requests_get BeautifulSoup org)
    as [[e ->]|[[code ->]|[soup ->]]]; simpl; split; congruence.
Qed.

Lemma filter_length_permutation {A : Type} (p : A -> bool) (l k : list A) :
  l ≡ₚ k -> length (List.filter p l) = length (List.filter p k).
Proof.
  induction 1 as [|x l k _ IH|x y l|l k m _ IH1 _ IH2]; simpl.
  - reflexivity.
  - destruct (p x); simpl; now rewrite IH.
  - destruct (p x), (p y); reflexivity.
  - now rewrite IH1.
Qed.

Lemma print_and_return_permutation (rows : nat) (l k : list SiteResult) :
  l ≡ₚ k ->
  print_and_return float percentage rows l
  = print_and_return float percentage rows k.
Proof.
  intros H. unfold print_and_return, total_success, english_sites,
    sites_with_language_options, sites_with_non_english_resources.
  now rewrite !(filter_length_permutation _ l k H).
Qed.

Lemma statistics_unfold (rows : list Org) (completed : list nat) :
  as_completed rows completed ->
  statistics rows completed
  = match rows with
    | [] => Raise (Exc "'status'")
    | _ => print_and_return float percentage (length rows) (map analyze rows)
    end.
Proof.
  intros Hc. pose proof (results_permutation rows completed Hc) as Hp.
  unfold analyze_ai_safety_organizations_stats.
  destruct rows as [|org rows].
  - apply Permutation_nil_r in Hp. now rewrite Hp.
  - destruct (results (org :: rows) completed) as [|r l] eqn:E.
    + symmetry in Hp. apply Permutation_nil_r in Hp. discriminate Hp.
    + now apply print_and_return_permutation.
Qed.

(** X15: the statistics do not depend on the order in which the futures
    complete: they are those of the results taken in the order of the
    rows, as the sequential loop of the source would collect them. *)
Theorem statistics_independent_of_completion_order
  (rows : list Org) (completed completed' : list nat) :
  as_completed rows completed ->
  as_completed rows completed' ->
  statistics rows completed = statistics rows completed'
  /\ (rows <> [] ->
      statistics rows completed
      = print_and_return float percentage (length rows) (map analyze rows)).
Proof.
  intros Hc Hc'.
  rewrite (statistics_unfold rows completed Hc).
  rewrite (statistics_unfold rows completed' Hc').
  split; [reflexivity|]. now destruct rows.
Qed.

(** X16: when the function returns, it counts every organization, at
    least one success and no more successes than organizations, and each
    percentage is the floating point quotient of a count that does not
    exceed the number of successes by that number: the guard that turns
    a percentage into 0 is never taken. *)
Theorem returned_statistics_are_quotients
  (rows : list Org) (completed : list nat) (stats : Stats float) :
  as_completed rows completed ->
  statistics rows completed = Return stats ->
  total_orgs float stats = length rows
  /\ 0 < successful_analysis float stats <= length rows
  /\ exists english multilingual resources,
       english <= successful_analysis float stats
       /\ multilingual <= successful_analysis float stats
       /\ resources <= successful_analysis float stats
       /\ english_percent float stats
          = Float float (percentage english (successful_analysis float stats))
       /\ multilingual_percent float stats
          = Float float
              (percentage multilingual (successful_analysis float stats))
       /\ non_english_resources_percent float stats
          = Float float
              (percentage resources (successful_analysis float stats)).
Proof.
  intros Hc. rewrite (statistics_unfold rows completed Hc).
  destruct rows as [|org rows]; [discriminate|].
  intros E.
  pose proof (print_and_return_cases (length (org :: rows))
                (map analyze (org :: rows))) as (_ & _ & Hret).
  rewrite length_map in Hret.
  destruct (Hret stats E) as (Ht & Hs & He & Hm & Hr).
  assert (Hts : successful_analysis float stats
                = total_success (map analyze (org :: rows))).
  { destruct (print_and_return_spec (length (org :: rows))
                (map analyze (org :: rows))) as [Hzero Hpos].
    destruct (Nat.eq_dec (total_success (map analyze (org :: rows))) 0)
      as [Hz|Hn].
    - rewrite (Hzero Hz) in E. discriminate.
    - rewrite Hpos in E by lia. now injection E as <-. }
  split; [exact Ht|]. split; [exact Hs|].
  exists (english_sites (map analyze (org :: rows))),
         (sites_with_language_options (map analyze (org :: rows))),
         (sites_with_non_english_resources (map analyze (org :: rows))).
  rewrite Hts. repeat split; try assumption.
  - apply filter_length_impl. now intros r _ [H _]%andb_true_iff.
  - apply filter_length_impl.
    intros r (o & <- & _)%in_map_iff H.
    apply findings_need_success in H. now rewrite H.
  - apply filter_length_impl.
    intros r (o & <- & _)%in_map_iff H.
    apply findings_need_success in H. now rewrite H.
Qed.

(** The two files written between the prints and the return *)
Variable to_csv : list SiteResult -> outcome unit.
Variable json_dump : list SiteResult -> outcome unit.

Local Abbreviation call :=
  (analyze_ai_safety_organizations_call
     float percentage str_ langdetect_detect requests_get BeautifulSoup
     to_csv json_dump).

(** The whole call is the statistics followed by the two files. *)
Lemma call_unfold (rows : list Org) (completed : list nat) :
  call rows completed
  = (stats ← statistics rows completed;
     _ ← to_csv (results rows completed);
     _ ← json_dump (results rows completed);
     mret stats).
Proof.
  unfold analyze_ai_safety_organizations_call,
    analyze_ai_safety_organizations_stats.
  destruct (results rows completed) as [|r l]; [reflexivity|].
  unfold print_and_return, percent.
  destruct (total_success (r :: l) =? 0)%nat; reflexivity.
Qed.

Lemma some_success_returns (rows : list Org) (completed : list nat) :
  as_completed rows completed ->
  (exists org, In org rows /\ r_status (analyze org) = success)
  <-> exists stats, statistics rows completed = Return stats.
Proof.
  intros Hc. rewrite (statistics_unfold rows completed Hc).
  pose proof (print_and_return_cases
                (length rows) (map analyze rows)) as (_ & Hsome & _).
  destruct rows as [|org rows].
  - split; [intros (o & [] & _)|intros (stats & [=])].
  - rewrite <- Hsome. split.
    + intros (o & Ho & Hs). exists (analyze o). split; [|exact Hs].
      now apply in_map.
    + intros (r & (o & <- & Ho)%in_map_iff & Hs). now exists o.
Qed.

(** X14: a call of [analyze_ai_safety_organizations] raises KeyError
    when there is no organization, and ZeroDivisionError when there are
    organizations of which none is analysed with success, in both cases
    before a file is written.  When the analysis of some organization
    succeeds, the call goes on to write its two files: an exception of
    [to_csv], or else of [open] and [json.dump], is the exception of the
    call, and with both files written the call returns the statistics.
    So the call returns exactly when some analysis succeeds and both
    files are written, and what it returns are the statistics. *)
Theorem statistics_need_a_success (rows : list Org) (completed : list nat) :
  as_completed rows completed ->
  (rows = [] -> call rows completed = Raise (Exc "'status'"))
  /\ (rows <> [] ->
      (forall org, In org rows -> r_status (analyze org) = error) ->
      call rows completed = Raise (Exc "division by zero"))
  /\ ((exists org, In org rows /\ r_status (analyze org) = success) ->
      (forall e, to_csv (results rows completed) = Raise e ->
                 call rows completed = Raise e)
      /\ (forall e, to_csv (results rows completed) = Return tt ->
                    json_dump (results rows completed) = Raise e ->
                    call rows completed = Raise e)
      /\ (to_csv (results rows completed) = Return tt ->
          json_dump (results rows completed) = Return tt ->
          call rows completed = statistics rows completed))
  /\ ((exists stats, call rows completed = Return stats)
      <-> (exists org, In org rows /\ r_status (analyze org) = success)
          /\ to_csv (results rows completed) = Return tt
          /\ json_dump (results rows completed) = Return tt)
  /\ (forall stats, call rows completed = Return stats ->
                    statistics rows completed = Return stats).
Proof.
  intros Hc. rewrite call_unfold.
  pose proof (some_success_returns rows completed Hc) as Hsome.
  split; [|split; [|split; [|split]]].
  - intros ->. now rewrite (statistics_unfold [] completed Hc).
  - intros Hne Hall.
    rewrite (statistics_unfold rows completed Hc).
    destruct rows as [|org rows]; [contradiction|].
    pose proof (print_and_return_cases
                  (length (org :: rows)) (map analyze (org :: rows)))
      as (Hzero & _ & _).
    rewrite (proj1 Hzero); [reflexivity|].
    intros r (o & <- & Ho)%in_map_iff. now apply Hall.
  - intros (stats & E)%Hsome. rewrite E. cbn.
    split; [|split].
    + intros e ->. reflexivity.
    + intros e -> ->. reflexivity.
    + intros -> ->. reflexivity.
  - split.
    + intros (stats & E).
      destruct (statistics rows completed) as [s|e] eqn:Es; [|discriminate].
      split; [apply Hsome; eauto|]. cbn in E.
      destruct (to_csv (results rows completed)) as [[]|]; [|discriminate].
      destruct (json_dump (results rows completed)) as [[]|];
        [|discriminate].
      now split.
    + intros ((stats & E)%Hsome & -> & ->). rewrite E. now exists stats.
  - intros stats E.
    destruct (statistics rows completed) as [s|e]; [|discriminate].
    cbn in E.
    destruct (to_csv (results rows completed)) as [[]|]; [|discriminate].
    destruct (json_dump (results rows completed)) as [[]|]; [|discriminate].
    exact E.
Qed.

End StatisticsProperties.

(** ** The organizations read from the map *)

Section MapLinks.

Lemma split_on_step (sep : string) (c : ascii) (t : string) :
  PyStr.split_on sep (String c t) 0
  = if String.prefix sep (String c t)
    then "" :: PyStr.split_on sep t (String.length sep - 1)
    else match PyStr.split_on sep t 0 with
         | [] => [String c ""]
         | w :: ws => String c w :: ws
         end.
Proof. reflexivity. Qed.

Lemma split_on_cons (sep s : string) (skip : nat) :
  exists w ws, PyStr.split_on sep s skip = w :: ws.
Proof.
  revert skip. induction s as [|c t IH]; intros skip; [now eexists _, _|].
  destruct skip as [|skip]; [|apply IH].
  rewrite split_on_step. destruct (String.prefix sep (String c t)).
  - now eexists _, _.
  - destruct (IH 0) as (w & ws & ->). now eexists _, _.
Qed.

(** The pieces of a text that starts with [http://] or [https://] *)
Lemma split_scheme (scheme rest : string) :
  scheme = "http:" \/ scheme = "https:" ->
  PyStr.split "//" (scheme ++ "//" ++ rest)
  = scheme :: PyStr.split_on "//" rest 0.
Proof.
  assert (Hsep : PyStr.split_on "//" ("//" ++ rest) 0
                 = "" :: PyStr.split_on "//" rest 0).
  { change ("//" ++ rest) with (String "/" (String "/" rest)).
    rewrite split_on_step, !string_prefix_cons, string_prefix_nil.
    reflexivity. }
  unfold PyStr.split.
  intros [-> | ->].
  - change ("http:" ++ "//" ++ rest)
      with (String "h" (String "t" (String "t" (String "p"
             (String ":" ("//" ++ rest)))))).
    rewrite !split_on_step, !string_prefix_cons. simpl andb. cbv iota.
    now rewrite Hsep.
  - change ("https:" ++ "//" ++ rest)
      with (String "h" (String "t" (String "t" (String "p" (String "s"
             (String ":" ("//" ++ rest))))))).
    rewrite !split_on_step, !string_prefix_cons. simpl andb. cbv iota.
    now rewrite Hsep.
Qed.

Lemma external_scheme (url : string) :
  is_external url = true ->
  exists scheme rest,
    (scheme = "http:" \/ scheme = "https:") /\ url = scheme ++ "//" ++ rest.
Proof.
  unfold is_external, Py.startswith.
  intros [_ [H|H]%orb_true_iff]%andb_true_iff;
    apply string_prefix_app in H as (rest & ->).
  - exists "http:", rest. auto.
  - exists "https:", rest. auto.
Qed.

(** The index 1 of the pieces exists for every url that passed the
    test on its scheme. *)
Lemma domain_of_external (url : string) :
  is_external url = true -> exists domain, domain_of url = Return domain.
Proof.
  intros (scheme & rest & Hs & ->)%external_scheme.
  unfold domain_of. rewrite (split_scheme scheme rest Hs).
  destruct (split_on_cons "//" rest 0) as (w & ws & ->). simpl.
  eauto.
Qed.

Lemma bind_return_inv {A B : Type} (c : outcome A) (k : A -> outcome B)
  (y : B) :
  c ≫= k = Return y -> exists a, c = Return a /\ k a = Return y.
Proof.
  destruct c as [a|e]; [|discriminate]. intros H. now exists a.
Qed.

Lemma first_div_text_returns (elems : list (outcome string)) :
  (forall elem, In elem elems -> exists t, elem = Return t) ->
  exists text, first_div_text elems = Return text.
Proof.
  induction elems as [|elem rest IH]; intros H; [now exists ""|].
  destruct (H elem (or_introl eq_refl)) as (t & ->). simpl.
  destruct (negb _); [eauto|].
  apply IH. intros e He. apply H. now right.
Qed.

(** X17: a link is kept whenever its address, once stripped, starts with
    http:// or https:// and the browser answers every call: the lookup of
    the domain, used when the link has no text, cannot fail on such an
    address.  The organization carries the stripped address. *)
Theorem external_link_is_kept
  (link : WebElement) (href text : string) (divs : list (outcome string)) :
  href_baseVal link = Return href ->
  link_text link = Return text ->
  div_texts link = Return divs ->
  (forall elem, In elem divs -> exists t, elem = Return t) ->
  is_external (Py.strip href) = true ->
  exists name,
    link_organization link
    = Return (Some {| org_name := name; org_url := Py.strip href |})
    /\ (Py.strip text <> "" -> name = Py.strip text).
Proof.
  intros Hh Ht Hd Hdivs Hext. unfold link_organization.
  rewrite Hh, Ht. simpl. rewrite Hext. simpl.
  destruct (String.eqb_spec (Py.strip text) "") as [E|E].
  - rewrite Hd. simpl.
    destruct (first_div_text_returns divs Hdivs) as (t & ->). simpl.
    destruct (String.eqb_spec t "") as [->|Hne].
    + destruct (domain_of_external _ Hext) as (d & ->). simpl.
      exists d. split; [reflexivity|]. intros H. contradiction.
    + simpl. exists t. split; [reflexivity|]. intros H. contradiction.
  - simpl. apply String.eqb_neq in E. rewrite E. simpl.
    exists (Py.strip text). split; reflexivity.
Qed.

(** X18: every organization of the list comes from a link of the page
    whose address the browser gave, and its url is that address
    stripped, not empty and starting with http:// or https://. *)
Theorem organizations_have_external_urls
  (links : list WebElement) (organization : Org) :
  In organization (organizations links) ->
  exists link href,
    In link links
    /\ href_baseVal link = Return href
    /\ org_url organization = Py.strip href
    /\ org_url organization <> ""
    /\ (Py.startswith (org_url organization) "http://" = true
        \/ Py.startswith (org_url organization) "https://" = true).
Proof.
  unfold organizations. intros (link & Hl & Ho)%in_flat_map.
  destruct (link_organization link) as [[o|]|e] eqn:E;
    [|destruct Ho|destruct Ho].
  destruct Ho as [->|[]]. unfold link_organization in E.
  destruct (href_baseVal link) as [href|e] eqn:Hh; [|discriminate E].
  simpl in E.
  destruct (is_external (Py.strip href)) eqn:Hext; [|discriminate E].
  simpl in E.
  assert (Hurl : org_url organization = Py.strip href).
  { apply bind_return_inv in E as (raw_text & _ & E).
    apply bind_return_inv in E as (text & _ & E).
    apply bind_return_inv in E as (text' & _ & E).
    now injection E as <-. }
  exists link, href. rewrite Hurl.
  unfold is_external in Hext.
  apply andb_true_iff in Hext as [Hne Hs].
  apply negb_true_iff, String.eqb_neq in Hne.
  apply orb_true_iff in Hs. auto.
Qed.

Lemma contains_step (sub : string) (c : ascii) (t : string) :
  Py.contains sub (String c t)
  = String.prefix sub (String c t) || Py.contains sub t.
Proof. reflexivity. Qed.

Lemma replace_on_step (old new : string) (c : ascii) (t : string) :
  PyStr.replace_on old new (String c t) 0
  = if String.prefix old (String c t)
    then new ++ PyStr.replace_on old new t (String.length old - 1)
    else String c (PyStr.replace_on old new t 0).
Proof. reflexivity. Qed.

Lemma replace_absent (old new s : string) :
  Py.contains old s = false -> PyStr.replace old new s = s.
Proof.
  unfold PyStr.replace. induction s as [|c t IH]; [reflexivity|].
  rewrite contains_step. intros [Hp Hc]%orb_false_iff.
  rewrite replace_on_step, Hp. now rewrite IH.
Qed.

(** The first piece of [host ++ tail] cut at [//], cut again at [/], is
    the host. *)
Lemma host_piece (host tail : string) :
  Py.contains "/" host = false ->
  tail = "" \/ (exists path, tail = "/" ++ path) ->
  exists w ws,
    PyStr.split_on "//" (host ++ tail) 0 = w :: ws
    /\ List.hd "" (Py.split "/" w) = host.
Proof.
  intros Hhost Htail. induction host as [|c t IH].
  - destruct Htail as [->|(path & ->)]; [now exists "", []|].
    change ("" ++ "/" ++ path) with (String "/" path).
    rewrite split_on_step.
    destruct (String.prefix "//" (String "/" path)); [now eexists _, _|].
    destruct (split_on_cons "//" path 0) as (w & ws & ->).
    now exists (String "/" w), ws.
  - rewrite contains_step, string_prefix_cons, string_prefix_nil in Hhost.
    rewrite andb_true_r in Hhost.
    apply orb_false_iff in Hhost as [Hc Ht].
    destruct (IH Ht) as (w & ws & Hw & Hhd).
    change (String c t ++ tail) with (String c (t ++ tail)).
    rewrite split_on_step, string_prefix_cons, Hc. simpl. rewrite Hw.
    exists (String c w), ws. split; [reflexivity|].
    cbn [Py.split]. rewrite Ascii.eqb_sym, Hc.
    destruct (Py.split "/" w) as [|w' ws']; simpl in *; now subst.
Qed.

(** X19: for an address made of http: or https:, two slashes, a host
    without slash and then nothing or a path, the name used when a link
    has no text is the host with every "www." removed: the host itself
    when it holds no "www.". *)
Theorem domain_is_the_host (scheme host tail : string) :
  scheme = "http:" \/ scheme = "https:" ->
  Py.contains "/" host = false ->
  tail = "" \/ (exists path, tail = "/" ++ path) ->
  domain_of (scheme ++ "//" ++ host ++ tail)
  = Return (PyStr.replace "www." "" host)
  /\ (Py.contains "www." host = false ->
      domain_of (scheme ++ "//" ++ host ++ tail) = Return host).
Proof.
  intros Hs Hhost Htail.
  assert (H : domain_of (scheme ++ "//" ++ host ++ tail)
              = Return (PyStr.replace "www." "" host)).
  { unfold domain_of. rewrite (split_scheme scheme _ Hs).
    destruct (host_piece host tail Hhost Htail) as (w & ws & -> & Hhd).
    simpl. now rewrite Hhd. }
  split; [exact H|]. intros Hw. rewrite H. now rewrite replace_absent.
Qed.

End MapLinks.

(** ** Counts and pages without tags *)

Section Edges.

Variable str_ : node -> string.
Variable langdetect_detect : string -> outcome string.
Variable requests_get : string -> outcome Response.
Variable BeautifulSoup : string -> outcome node.

Lemma existsb_same_elements {A : Type} (p : A -> bool) (l k : list A) :
  (forall x, In x l <-> In x k) -> existsb p l = existsb p k.
Proof.
  intros H. apply Bool.eq_iff_eq_true. rewrite !existsb_exists.
  split; intros (x & Hx & Hp); exists x; split; auto; now apply H.
Qed.

(** X20: the two counts of a select are counts of languages, not of
    options: option values, or option texts, that form the same set give
    the same count, however often and in whatever order they occur. *)
Theorem match_counts_ignore_repetition (l k : list string) :
  (forall v, In v l <-> In v k) ->
  lang_code_matches l = lang_code_matches k
  /\ lang_name_matches l = lang_name_matches k.
Proof.
  intros H. unfold lang_code_matches, lang_name_matches.
  split; f_equal; apply List.filter_ext; intros x;
    now apply existsb_same_elements.
Qed.

Lemma no_tags_filter (soup : node) (p : node -> bool) :
  Soup.find_all_tags soup = [] ->
  (forall d, p d = true -> Soup.is_tag d = true) ->
  List.filter p (Soup.descendants soup) = [].
Proof.
  intros Hno Hp. apply filter_none. intros d Hd.
  destruct (p d) eqn:E; [|reflexivity].
  assert (In d (Soup.find_all_tags soup)) as Hin.
  { apply List.filter_In. split; [exact Hd|]. now apply Hp. }
  rewrite Hno in Hin. destruct Hin.
Qed.

Lemma no_tags_find_all (soup : node) (names : list string) :
  Soup.find_all_tags soup = [] -> Soup.find_all names soup = [].
Proof.
  intros H. apply (no_tags_filter soup _ H).
  unfold Soup.named. now intros d [Ht _]%andb_true_iff.
Qed.

Lemma no_tags_find_id (soup : node) (v : string) :
  Soup.find_all_tags soup = [] -> Soup.find_id v soup = None.
Proof.
  intros H. unfold Soup.find_id. rewrite (no_tags_filter soup _ H).
  - reflexivity.
  - now intros d [Ht _]%andb_true_iff.
Qed.

Lemma no_tags_select (soup : node) (sel : Soup.selector) :
  Soup.find_all_tags soup = [] -> Soup.select sel soup = [].
Proof.
  intros H. apply (no_tags_filter soup _ H).
  intros d. destruct sel; simpl; unfold Soup.named.
  - now intros [Ht _]%andb_true_iff.
  - now intros [[Ht _]%andb_true_iff _]%andb_true_iff.
Qed.

Lemma flat_map_nil {A B : Type} (f : A -> list B) (l : list A) :
  (forall x, f x = []) -> flat_map f l = [].
Proof.
  intros H. induction l as [|x l IH]; [reflexivity|].
  simpl. now rewrite H, IH.
Qed.

Lemma no_tags_no_signal (soup : node) :
  Soup.find_all_tags soup = [] -> detect_language_options str_ soup = [].
Proof.
  intros H. unfold detect_language_options, approach1, approach2, approach3,
    approach4, alt_langs, alternate_links, gt_element_options,
    gt_script_options.
  rewrite !(no_tags_find_all soup _ H), (no_tags_find_id soup _ H).
  rewrite (flat_map_nil (id_pattern_options str_ soup)).
  - reflexivity.
  - intros pattern. unfold id_pattern_options.
    now rewrite (no_tags_find_id soup _ H).
Qed.

Lemma no_tags_containers (soup : node) (tags : list Soup.selector) :
  Soup.find_all_tags soup = [] ->
  from_containers langdetect_detect soup tags = None.
Proof.
  intros H. induction tags as [|tag rest IH]; [reflexivity|].
  simpl. now rewrite (no_tags_select soup tag H).
Qed.

Lemma no_tags_unknown (soup : node) :
  Soup.find_all_tags soup = [] ->
  detect_primary_language langdetect_detect soup = "unknown".
Proof.
  intros H.
  unfold detect_primary_language, html_lang, meta_content, from_text,
    from_paragraphs, from_body, Soup.find.
  rewrite (no_tags_containers soup _ H).
  now rewrite !(no_tags_find_all soup _ H).
Qed.

(** X21: a response with status code 200 whose parsed document holds no
    tag at all, such as an empty page or bare text of any length, is a
    success with the primary language "unknown", no language option and
    no non-English resource: the guesser is not asked. *)
Theorem page_without_tags_is_unknown
  (org : Org) (response : Response) (soup : node) :
  requests_get (org_url org) = Return response ->
  status_code response = 200%Z ->
  BeautifulSoup (text response) = Return soup ->
  Soup.find_all_tags soup = [] ->
  analyze_website str_ langdetect_detect requests_get BeautifulSoup org
  = {| r_name := org_name org;
       r_url := org_url org;
       r_status := success;
       r_status_code := None;
       r_error := None;
       r_primary_language := Some "unknown";
       r_has_language_options := false;
       r_language_options := [];
       r_has_non_english_resources := false |}.
Proof.
  intros Hr Hc Hp Hno.
  rewrite (analyze_parsed _ _ _ _ _ _ _ Hr Hc Hp). unfold classify.
  rewrite (no_tags_no_signal soup Hno), (no_tags_unknown soup Hno).
  f_equal. unfold check_for_non_english_resources, non_english_indicators,
    links_with_href, resource_sections.
  now rewrite !(no_tags_find_all soup _ Hno).
Qed.

End Edges.

(** ** The languages of a link *)

Section LinkLanguages.

Variable str_ : node -> string.

Lemma value_after_sound (key r g : string) :
  key = "lang" \/ key = "language" ->
  Re.value_after key r = Some g ->
  two_letters g /\ exists rest, r = key ++ "=" ++ g ++ rest.
Proof.
  intros Hkey. unfold Re.value_after.
  destruct (String.prefix (key ++ "=") r) eqn:Hp; [|discriminate].
  apply string_prefix_app in Hp as (rest & ->).
  assert (Hsub : String.substring (String.length key + 1) 2
                   ((key ++ "=") ++ rest)
                 = String.substring 0 2 rest)
    by (destruct Hkey as [-> | ->]; reflexivity).
  rewrite Hsub.
  destruct rest as [|a [|b rest]]; try discriminate.
  cbn [String.substring].
  destruct rest as [|c rest]; cbn [String.substring];
    (destruct (Re.is_az a) eqn:Ha; [|discriminate]);
    (destruct (Re.is_az b) eqn:Hb; [|discriminate]);
    intros [= <-]; (split; [now exists a, b|]);
    eexists; destruct Hkey as [-> | ->]; reflexivity.
Qed.

Lemma search_param_cons (c : ascii) (t : string) :
  Re.search_param (String c t)
  = match Re.param_at (String c t) with
    | Some g => Some g
    | None => Re.search_param t
    end.
Proof. reflexivity. Qed.

Lemma search_param_sound (s g : string) :
  Re.search_param s = Some g ->
  two_letters g
  /\ exists before sep key rest,
       s = before ++ sep ++ key ++ "=" ++ g ++ rest
       /\ (sep = "?" \/ sep = "&")
       /\ (key = "lang" \/ key = "language").
Proof.
  revert g. induction s as [|c t IH]; intros g; [discriminate|].
  rewrite search_param_cons.
  destruct (Re.param_at (String c t)) as [g'|] eqn:E.
  - intros [= ->]. unfold Re.param_at in E.
    destruct (Ascii.eqb c "?" || Ascii.eqb c "&") eqn:Hc; [|discriminate].
    assert (Hsep : String c "" = "?" \/ String c "" = "&").
    { apply orb_true_iff in Hc as [->%Ascii.eqb_eq | ->%Ascii.eqb_eq]; auto. }
    destruct (Re.value_after "lang" t) as [g1|] eqn:E1.
    + injection E as ->.
      apply value_after_sound in E1 as (Hg & rest & ->); [|now left].
      split; [exact Hg|]. exists "", (String c ""), "lang", rest. auto.
    + apply value_after_sound in E as (Hg & rest & ->); [|now right].
      split; [exact Hg|]. exists "", (String c ""), "language", rest. auto.
  - intros (Hg & before & sep & key & rest & -> & Hs & Hk)%IH.
    split; [exact Hg|]. now exists (String c before), sep, key, rest.
Qed.

(** X22: a code that a link contributes to matched_paths is one of the
    eleven supported codes, of two letters a to z, and it stands in the
    lower-cased href either as a path segment (after a slash and before a
    slash, a question mark, the end or a region) or as the value of a
    lang or language parameter after a question mark or an ampersand. *)
Theorem link_codes_come_from_the_href (href g : string) :
  In g (href_matches href) ->
  In g language_codes
  /\ two_letters g
  /\ ((exists before rest,
         href = before ++ "/" ++ g ++ rest
         /\ (Re.region_then_end rest = true \/ Re.path_end rest = true))
      \/ (exists before sep key rest,
            href = before ++ sep ++ key ++ "=" ++ g ++ rest
            /\ (sep = "?" \/ sep = "&")
            /\ (key = "lang" \/ key = "language"))).
Proof.
  intros H. split; [now apply (href_matches_codes href)|].
  unfold href_matches in H. apply in_app_or in H as [H|H].
  - destruct (Re.search_path href) as [p|] eqn:E; [|destruct H].
    case_bool_decide; [|destruct H]. destruct H as [<-|[]].
    apply search_path_sound in E as (Hg & He). split; [exact Hg|now left].
  - destruct (Re.search_param href) as [p|] eqn:E; [|destruct H].
    case_bool_decide; [|destruct H].
    destruct (_ && _); [destruct H|]. destruct H as [<-|[]].
    apply search_param_sound in E as (Hg & He). split; [exact Hg|now right].
Qed.

(** X23: a link text that is one of the language names of the table, or
    such a name followed by a space and anything, is matched to the code
    of that name; a link text that is one of the supported codes is
    matched to itself. *)
Theorem link_text_recognised :
  (forall name code, In (name, code) language_names ->
     text_match name = [code]
     /\ forall rest, text_match (name ++ " " ++ rest) = [code])
  /\ (forall code, In code language_codes -> text_match code = [code]).
Proof.
  split.
  - intros name code H. unfold language_names in H.
    repeat (destruct H as [[= <- <-]|H];
            [split; [vm_compute; reflexivity
                    |intros [|c rest]; vm_compute; reflexivity]|]).
    destruct H.
  - intros code H. unfold language_codes in H.
    repeat (destruct H as [<-|H]; [vm_compute; reflexivity|]).
    destruct H.
Qed.

Lemma text_match_name (name code : string) :
  In (name, code) language_names -> text_match name = [code].
Proof.
  intros H. unfold language_names in H.
  repeat (destruct H as [[= <- <-]|H]; [vm_compute; reflexivity|]).
  destruct H.
Qed.

Lemma size_two (S : gset string) (x y : string) :
  x ∈ S -> y ∈ S -> x <> y -> 2 <= size S.
Proof.
  intros Hx Hy Hne.
  assert (Hsub : ({[x]} ∪ {[y]} : gset string) ⊆ S).
  { intros z [->%elem_of_singleton | ->%elem_of_singleton]%elem_of_union;
      assumption. }
  apply subseteq_size in Hsub.
  rewrite size_union, !size_singleton in Hsub; [exact Hsub|].
  intros z ->%elem_of_singleton ->%elem_of_singleton. now apply Hne.
Qed.

(** X24: a nav, ul or div with at most 20 tags below it and between 2
    and 10 links, none of them to a denylisted domain, two of which have
    as text two language names of different languages, gives a
    language_menu signal that lists both languages among its names. *)
Theorem two_language_names_make_a_menu
  (soup nav link1 link2 : node) (name1 code1 name2 code2 : string) :
  In nav (Soup.find_all ["nav"; "ul"; "div"] soup) ->
  length (Soup.find_all_tags nav) <= 20 ->
  2 <= length (Soup.find_all ["a"] nav) <= 10 ->
  (forall link domain,
     In link (Soup.find_all ["a"] nav) -> In domain exclude_domains ->
     Py.contains domain (Soup.get link "href") = false) ->
  In link1 (Soup.find_all ["a"] nav) ->
  In link2 (Soup.find_all ["a"] nav) ->
  In (name1, code1) language_names ->
  In (name2, code2) language_names ->
  code1 <> code2 ->
  Py.lower (Py.strip (Soup.get_text link1)) = name1 ->
  Py.lower (Py.strip (Soup.get_text link2)) = name2 ->
  exists paths names,
    In (language_menu paths names (Py.take 200 (str_ nav)))
       (detect_language_options str_ soup)
    /\ In code1 names /\ In code2 names.
Proof.
  intros Hnav Hbig [Hlo Hhi] Hdeny Hl1 Hl2 Hn1 Hn2 Hne Ht1 Ht2.
  set (links := Soup.find_all ["a"] nav) in *.
  assert (Hfilter :
            List.filter
              (fun link =>
                 negb (existsb (fun domain =>
                                  Py.contains domain (Soup.get link "href"))
                               exclude_domains)) links = links).
  { apply filter_all. intros link Hl. apply negb_true_iff.
    destruct (existsb _ exclude_domains) eqn:E; [|reflexivity].
    apply existsb_exists in E as (domain & Hd & Hc).
    now rewrite (Hdeny link domain Hl Hd) in Hc. }
  set (texts := flat_map text_match
                  (map (fun link => Py.lower (Py.strip (Soup.get_text link)))
                       links)).
  assert (Hin : forall link name code,
             In link links -> In (name, code) language_names ->
             Py.lower (Py.strip (Soup.get_text link)) = name ->
             In code texts).
  { intros link name code Hl Hn Ht. apply in_flat_map. exists name.
    split.
    - apply in_map_iff. now exists link.
    - rewrite (text_match_name name code Hn). now left. }
  pose proof (Hin link1 name1 code1 Hl1 Hn1 Ht1) as Hc1.
  pose proof (Hin link2 name2 code2 Hl2 Hn2 Ht2) as Hc2.
  eexists _, (elements (list_to_set texts : gset string)).
  split; [|split].
  - unfold detect_language_options. apply in_or_app. right.
    apply in_or_app. left. apply in_flat_map. exists nav.
    split; [exact Hnav|]. unfold nav_options. fold links.
    apply Nat.ltb_ge in Hbig. rewrite Hbig.
    apply Nat.leb_le in Hlo, Hhi. rewrite Hlo, Hhi. cbn [andb].
    rewrite Hfilter.
    apply Nat.leb_le in Hlo.
    destruct (Nat.ltb_spec (length links) 2) as [Hlt|_]; [lia|].
    fold texts.
    match goal with
    | |- In _ (if (?r <=? size ?S)%nat then _ else _) =>
        assert (Hsize : (r <=? size S)%nat = true)
    end.
    { apply Nat.leb_le. etransitivity.
      - instantiate (1 := 2). destruct (explicit_lang_element nav); lia.
      - apply (size_two _ code1 code2); [| |exact Hne];
          apply elem_of_union; right; apply elem_of_list_to_set;
          now apply list_elem_of_In. }
    rewrite Hsize. left. reflexivity.
  - apply list_elem_of_In, elem_of_elements, elem_of_list_to_set.
    now apply list_elem_of_In.
  - apply list_elem_of_In, elem_of_elements, elem_of_list_to_set.
    now apply list_elem_of_In.
Qed.

End LinkLanguages.

(** ** The further properties at concrete inputs *)

Lemma dropdown_signal_characterised_witness :
  In (language_select 3 0 (Py.take 200 (render select_en_fr_de)))
     (detect_language_options render (page [select_en_fr_de])).
Proof.
  pose proof (dropdown_signal_characterised
                render (page [select_en_fr_de]) 3 0
                (Py.take 200 (render select_en_fr_de))) as (Hiff & _).
  apply Hiff. exists select_en_fr_de.
  split; [vm_compute; auto|]. split; [vm_compute; lia|].
  split; [vm_compute; reflexivity|]. split; [vm_compute; reflexivity|].
  split; [vm_compute; reflexivity|]. split; [left; lia|reflexivity].
Defined.

Lemma language_menu_invariant_witness :
  NoDup ["fr"; "de"]
  /\ (forall p, In p ["fr"; "de"] -> In p language_codes)
  /\ 1 <= length ["fr"; "de"] + length ["fr"; "de"].
Proof.
  pose proof (language_menu_invariant
                render (page [language_menu_list]) ["fr"; "de"] ["fr"; "de"]
                "<ul><li><a>Français</a></li><li><a>Deutsch</a></li></ul>")
    as H.
  destruct H as (Hnd & _ & Hcodes & _ & Hone & _).
  - vm_compute. auto.
  - split; [exact Hnd|]. split; [exact Hcodes|exact Hone].
Defined.

Lemma signal_content_bounded_witness :
  Py.len "<select><option>EN</option><option>FR</option></select>" <= 200.
Proof.
  apply (signal_content_bounded
           render (page [select_en_fr])
           (language_select 2 0
              "<select><option>EN</option><option>FR</option></select>")).
  - vm_compute. auto.
  - reflexivity.
Defined.

Lemma language_segment_found_witness :
  two_letters "fr"
  /\ exists before rest,
       "https://x.org/fr/about" = before ++ "/" ++ "fr" ++ rest
       /\ (Re.region_then_end rest = true \/ Re.path_end rest = true).
Proof.
  pose proof (language_segment_found "https://x.org/fr/about") as (H & _).
  apply H. vm_compute. reflexivity.
Defined.

Lemma meta_content_language_decides_witness :
  detect_primary_language no_guess page_with_meta
  = primary_subtag (Py.lower "fr-CA").
Proof.
  apply (meta_content_language_decides no_guess page_with_meta "fr-CA").
  - vm_compute. reflexivity.
  - vm_compute. reflexivity.
Defined.

Lemma guesser_sees_long_texts_only_witness :
  detect_primary_language always_fr (page [elem "p" [] [txt "court"]])
  = detect_primary_language guess_fr (page [elem "p" [] [txt "court"]]).
Proof.
  apply (guesser_sees_long_texts_only always_fr guess_fr).
  intros t Ht. unfold always_fr, guess_fr.
  apply Nat.ltb_lt in Ht. now rewrite Ht.
Defined.

Lemma paragraphs_guess_is_final_witness :
  detect_primary_language
    no_guess (page [long_paragraph; elem "main" [] [long_paragraph]])
  = "unknown".
Proof.
  pose proof (paragraphs_guess_is_final
                no_guess
                (page [long_paragraph; elem "main" [] [long_paragraph]])
                long_paragraph [long_paragraph]) as H.
  rewrite H.
  - reflexivity.
  - vm_compute. reflexivity.
  - vm_compute. reflexivity.
  - vm_compute. reflexivity.
  - vm_compute. lia.
Defined.

Lemma foreign_primary_language_means_resources_witness :
  r_has_non_english_resources
    (analyze_website render no_guess (respond ok_response)
                     (parse_as (html_with_lang "en_US")) org0) = true.
Proof.
  apply (foreign_primary_language_means_resources
           render no_guess (respond ok_response)
           (parse_as (html_with_lang "en_US")) org0 "en_us").
  - vm_compute. reflexivity.
  - vm_compute. reflexivity.
  - discriminate.
  - discriminate.
Defined.

Lemma print_stats_needs_a_success_witness :
  exists stats,
    print_stats (nat * nat) ratio
      [status_error org0 404;
       classify render no_guess org0 (html_with_lang "fr")]
    = Return stats.
Proof.
  pose proof (print_stats_needs_a_success
                (nat * nat) ratio
                [status_error org0 404;
                 classify render no_guess org0 (html_with_lang "fr")])
    as (_ & Hsome & _).
  apply Hsome.
  exists (classify render no_guess org0 (html_with_lang "fr")).
  split; [right; now left|reflexivity].
Defined.

Lemma statistics_need_a_success_witness :
  analyze_ai_safety_organizations_call
    (nat * nat) ratio render no_guess unreachable parse_fails
    written written three_orgs [2; 0; 1]
  = Raise (Exc "division by zero")
  /\ analyze_ai_safety_organizations_call
       (nat * nat) ratio render no_guess (respond ok_response)
       (parse_as (html_with_lang "fr")) no_directory written
       three_orgs [2; 0; 1]
     = Raise (Exc "Cannot save file into a non-existent directory: 'generated'")
  /\ exists stats,
       analyze_ai_safety_organizations_call
         (nat * nat) ratio render no_guess (respond ok_response)
         (parse_as (html_with_lang "fr")) written written
         three_orgs [2; 0; 1]
       = Return stats.
Proof.
  pose proof (statistics_need_a_success
                (nat * nat) ratio render no_guess unreachable parse_fails
                written written three_orgs [2; 0; 1] three_futures_completed)
    as (_ & Hzero & _).
  pose proof (statistics_need_a_success
                (nat * nat) ratio render no_guess (respond ok_response)
                (parse_as (html_with_lang "fr")) no_directory written
                three_orgs [2; 0; 1] three_futures_completed)
    as (_ & _ & Hfiles & _).
  pose proof (statistics_need_a_success
                (nat * nat) ratio render no_guess (respond ok_response)
                (parse_as (html_with_lang "fr")) written written
                three_orgs [2; 0; 1] three_futures_completed)
    as (_ & _ & _ & Hreturns & _).
  assert (Hsuccess :
            exists org, In org three_orgs
              /\ r_status (analyze_website
                             render no_guess (respond ok_response)
                             (parse_as (html_with_lang "fr")) org)
                 = success).
  { exists {| org_name := "A"; org_url := "https://a.org" |}. split; [now left|reflexivity]. }
  split; [|split].
  - apply Hzero; [discriminate|]. intros org _. reflexivity.
  - destruct (Hfiles Hsuccess) as (Hcsv & _). apply Hcsv. reflexivity.
  - apply Hreturns. split; [exact Hsuccess|]. split; reflexivity.
Defined.

Lemma three_futures_in_order :
  as_completed three_orgs [0; 1; 2].
Proof.
  split.
  - repeat (apply NoDup_cons_2;
            [rewrite ?elem_of_cons, elem_of_nil; lia|]).
    apply NoDup_nil_2.
  - intros future. rewrite future_to_org_lookup, lookup_lt_is_Some.
    simpl. rewrite !elem_of_cons, elem_of_nil. lia.
Qed.

Lemma statistics_independent_of_completion_order_witness :
  analyze_ai_safety_organizations_stats
    (nat * nat) ratio render no_guess (respond ok_response)
    (parse_as (html_with_lang "fr")) three_orgs [2; 0; 1]
  = analyze_ai_safety_organizations_stats
      (nat * nat) ratio render no_guess (respond ok_response)
      (parse_as (html_with_lang "fr")) three_orgs [0; 1; 2].
Proof.
  pose proof (statistics_independent_of_completion_order
                (nat * nat) ratio render no_guess (respond ok_response)
                (parse_as (html_with_lang "fr")) three_orgs [2; 0; 1] [0; 1; 2]
                three_futures_completed three_futures_in_order) as (H & _).
  exact H.
Defined.

Lemma returned_statistics_are_quotients_witness :
  total_orgs (nat * nat)
    {| total_orgs := 3;
       successful_analysis := 3;
       english_percent := Float (nat * nat) (0, 3);
       multilingual_percent := Float (nat * nat) (0, 3);
       non_english_resources_percent := Float (nat * nat) (3, 3) |}
  = length three_orgs.
Proof.
  pose proof (returned_statistics_are_quotients
                (nat * nat) ratio render no_guess (respond ok_response)
                (parse_as (html_with_lang "fr")) three_orgs [2; 0; 1]
                {| total_orgs := 3;
                   successful_analysis := 3;
                   english_percent := Float (nat * nat) (0, 3);
                   multilingual_percent := Float (nat * nat) (0, 3);
                   non_english_resources_percent := Float (nat * nat) (3, 3) |}
                three_futures_completed) as H.
  destruct H as (H & _); [vm_compute; reflexivity|exact H].
Defined.

Lemma external_link_is_kept_witness :
  exists name,
    link_organization map_link
    = Return (Some {| org_name := name;
                      org_url := Py.strip " https://www.example.org/about " |})
    /\ (Py.strip "  " <> "" -> name = Py.strip "  ").
Proof.
  apply (external_link_is_kept
           map_link " https://www.example.org/about " "  "
           [Return " "; Return " Example Org "]);
    try reflexivity.
  intros elem [<-|[<-|[]]]; eauto.
Defined.

Lemma organizations_have_external_urls_witness :
  exists link href,
    In link [map_link; stale_link]
    /\ href_baseVal link = Return href
    /\ "https://www.example.org/about" = Py.strip href
    /\ "https://www.example.org/about" <> ""
    /\ (Py.startswith "https://www.example.org/about" "http://" = true
        \/ Py.startswith "https://www.example.org/about" "https://" = true).
Proof.
  apply (organizations_have_external_urls
           [map_link; stale_link]
           {| org_name := "Example Org";
              org_url := "https://www.example.org/about" |}).
  vm_compute. auto.
Defined.

Lemma domain_is_the_host_witness :
  domain_of ("https:" ++ "//" ++ "example.org" ++ "/about")
  = Return "example.org".
Proof.
  pose proof (domain_is_the_host "https:" "example.org" "/about") as H.
  destruct H as (_ & H).
  - now right.
  - reflexivity.
  - right. now exists "about".
  - apply H. reflexivity.
Defined.

Lemma match_counts_ignore_repetition_witness :
  lang_code_matches ["en"; "en"; "fr"] = lang_code_matches ["fr"; "en"]
  /\ lang_name_matches ["en"; "en"; "fr"] = lang_name_matches ["fr"; "en"].
Proof.
  apply (match_counts_ignore_repetition ["en"; "en"; "fr"] ["fr"; "en"]).
  intros v. simpl. tauto.
Defined.

Lemma page_without_tags_is_unknown_witness :
  analyze_website render always_fr (respond ok_response)
                  (parse_as (document [txt "Bonjour"])) org0
  = {| r_name := org_name org0;
       r_url := org_url org0;
       r_status := success;
       r_status_code := None;
       r_error := None;
       r_primary_language := Some "unknown";
       r_has_language_options := false;
       r_language_options := [];
       r_has_non_english_resources := false |}.
Proof.
  apply (page_without_tags_is_unknown
           render always_fr (respond ok_response)
           (parse_as (document [txt "Bonjour"])) org0 ok_response
           (document [txt "Bonjour"]));
    reflexivity.
Defined.

Lemma link_codes_come_from_the_href_witness :
  In "de" language_codes
  /\ two_letters "de"
  /\ ((exists before rest,
         "/p?a=1&language=de" = before ++ "/" ++ "de" ++ rest
         /\ (Re.region_then_end rest = true \/ Re.path_end rest = true))
      \/ (exists before sep key rest,
            "/p?a=1&language=de" = before ++ sep ++ key ++ "=" ++ "de" ++ rest
            /\ (sep = "?" \/ sep = "&")
            /\ (key = "lang" \/ key = "language"))).
Proof.
  apply (link_codes_come_from_the_href "/p?a=1&language=de" "de").
  vm_compute. auto.
Defined.

Lemma link_text_recognised_witness :
  text_match "français" = ["fr"]
  /\ text_match ("français" ++ " " ++ "(france)") = ["fr"]
  /\ text_match "de" = ["de"].
Proof.
  pose proof link_text_recognised as (Hname & Hcode).
  destruct (Hname "français" "fr") as (H1 & H2); [vm_compute; auto 10|].
  split; [exact H1|]. split; [apply H2|].
  apply Hcode. vm_compute. auto 10.
Defined.

Lemma two_language_names_make_a_menu_witness :
  exists paths names,
    In (language_menu paths names (Py.take 200 (render language_menu_list)))
       (detect_language_options render (page [language_menu_list]))
    /\ In "fr" names /\ In "de" names.
Proof.
  apply (two_language_names_make_a_menu
           render (page [language_menu_list]) language_menu_list
           (elem "a" [("href", "/fr/")] [txt "Français"])
           (elem "a" [("href", "/de/")] [txt "Deutsch"])
           "français" "fr" "deutsch" "de").
  - vm_compute. auto.
  - vm_compute. lia.
  - vm_compute. lia.
  - intros link domain Hl Hd.
    assert (forallb
              (fun link =>
                 forallb (fun domain =>
                            negb (Py.contains domain (Soup.get link "href")))
                         exclude_domains)
              (Soup.find_all ["a"] language_menu_list) = true) as Hall
      by (vm_compute; reflexivity).
    rewrite forallb_forall in Hall. specialize (Hall link Hl).
    rewrite forallb_forall in Hall. specialize (Hall domain Hd).
    now apply negb_true_iff in Hall.
  - vm_compute. auto.
  - vm_compute. auto.
  - vm_compute. auto 10.
  - vm_compute. auto 10.
  - discriminate.
  - vm_compute. reflexivity.
  - vm_compute. reflexivity.
Defined.
